(** * Calibration and measurement pipeline of the aquatic sensor modules

    A shallow embedding of the firmware of three probe modules:
    - [Ammonia]        : the ammonia ion-selective-electrode module,
    - [NitriteNitrate] : the nitrite/nitrate module,
    - [TocBod]         : the organic-load module with its sample-preparation
                         state machine.

    Conventions of the embedding.
    - A C [float] is a real number: rounding, NaN and infinities are not part
      of the model.  [pow(10, x)] is [Rpower 10 x], [log10] is [ln x / ln 10],
      [sqrt] is the real square root.
    - [int] and [unsigned long] are [Z]; [unsigned long] arithmetic wraps
      modulo [2^32] where the code relies on it ([millis()] differences).
    - Hardware is an explicit input: [analogRead] is a function giving the
      successive samples, [millis()] is a time argument.
    - Globals are fields of one state record that every operation threads. *)

From Stdlib Require Import Reals Lra Lia ZArith List String Bool Psatz.
From stdpp Require Import base list.
Import ListNotations.

(** ** Comparisons of float values *)

Definition Rgeb (x y : R) : bool := if Rge_dec x y then true else false.
Definition Rleb (x y : R) : bool := if Rle_dec x y then true else false.
Definition Rgtb (x y : R) : bool := if Rgt_dec x y then true else false.
Definition Rltb (x y : R) : bool := if Rlt_dec x y then true else false.
Definition Rneqb (x y : R) : bool := if Req_dec_T x y then false else true.

Declare Scope float_scope.
Delimit Scope float_scope with float.
Notation "x >=? y" := (Rgeb x y) (at level 70) : float_scope.
Notation "x <=? y" := (Rleb x y) (at level 70) : float_scope.
Notation "x >? y" := (Rgtb x y) (at level 70) : float_scope.
Notation "x <? y" := (Rltb x y) (at level 70) : float_scope.

(** [log10] and [pow(10, .)] of <math.h>, on reals. *)
Definition log10 (x : R) : R := (ln x / ln 10)%R.
Definition pow10 (x : R) : R := Rpower 10 x.

(** [for (int i = 0; i < n; i++) body] with an accumulator. *)
Definition for_loop {A : Type} (n : nat) (body : A -> nat -> A) (init : A) : A :=
  fold_left body (seq 0 n) init.

(** [a[i]] on a float array. *)
Definition at_index (a : list R) (i : nat) : R := nth i a 0%R.

(** ** The ammonia module *)

Module Ammonia.
Local Open Scope R_scope.
Local Open Scope float_scope.

Definition CALIBRATION_POINTS : nat := 3.
Definition MAX_READINGS_BUFFER : nat := 10.

Definition AMMONIA_MIN_RANGE : R := 0.01.
Definition AMMONIA_MAX_RANGE : R := 100.0.
Definition THEORETICAL_SLOPE : R := 59.16.
Definition MIN_ACCEPTABLE_SLOPE : R := 50.0.
Definition MAX_ACCEPTABLE_SLOPE : R := 65.0.

Definition CALIB_STANDARD_1 : R := 1.0.
Definition CALIB_STANDARD_2 : R := 10.0.
Definition CALIB_STANDARD_3 : R := 100.0.

Definition PKA_25C : R := 9.25.
Definition TEMP_COEFF : R := 0.0324.
Definition REFERENCE_TEMP : R := 25.0.

Definition TOXIC_WARNING_THRESHOLD : R := 0.1.
Definition TOXIC_CRITICAL_THRESHOLD : R := 0.5.
Definition TOXIC_ACUTE_THRESHOLD : R := 2.0.

Definition CALIB_VALID_ADDR : Z := 0.
Definition CALIB_SLOPE_ADDR : Z := 4.
Definition CALIB_INTERCEPT_ADDR : Z := 8.
Definition CALIB_DATE_ADDR : Z := 12.
Definition CALIB_POINTS_ADDR : Z := 16.

(** [struct AmmoniaData]; its [slope] field is [readingSlope] here, the
    name [slope] being taken by [CalibrationData]. *)
Record AmmoniaData := mkAmmoniaData {
  totalAmmonia : R;
  freeAmmonia : R;
  ammonium : R;
  pH : R;
  temperature : R;
  rawVoltage : R;
  readingSlope : R;
  timestamp : Z;
  toxicityLevel : string;
  dataValid : bool
}.

(** [struct CalibrationData]. *)
Record CalibrationData := mkCalibrationData {
  isValid : bool;
  slope : R;
  intercept : R;
  standards : list R;
  voltages : list R;
  calibrationDate : Z;
  correlationCoeff : R
}.

(** The anonymous RTC struct [rtcData]. *)
Record RtcData := mkRtcData {
  bootCount : Z;
  lastTotalAmmonia : R;
  lastFreeAmmonia : R;
  lastpH : R;
  lastTemp : R;
  toxicAlert : bool
}.

(** The EEPROM as the code reads it: [EEPROM.get(addr, x)] returns what the
    last [EEPROM.put(addr, y)] with [y] of the type of [x] stored.  The four
    cells of this module lie at 0, 4, 8 and 12 and are each at most four bytes
    wide, so no [put] clobbers another cell. *)
Record EEPROM := mkEEPROM {
  ee_bool : Z -> bool;
  ee_float : Z -> R;
  ee_ulong : Z -> Z
}.

Definition put_bool (a : Z) (v : bool) (e : EEPROM) : EEPROM :=
  mkEEPROM (fun x => if Z.eqb x a then v else ee_bool e x) (ee_float e) (ee_ulong e).
Definition put_float (a : Z) (v : R) (e : EEPROM) : EEPROM :=
  mkEEPROM (ee_bool e) (fun x => if Z.eqb x a then v else ee_float e x) (ee_ulong e).
Definition put_ulong (a : Z) (v : Z) (e : EEPROM) : EEPROM :=
  mkEEPROM (ee_bool e) (ee_float e) (fun x => if Z.eqb x a then v else ee_ulong e x).

(** What the module hands to MQTT. *)
Inductive Message :=
| SensorDataMsg (r : AmmoniaData) (boot : Z)
| ToxicAlertMsg (free : R) (level : string) (at_ms : Z).

(** The globals of the sketch. *)
Record Globals := mkGlobals {
  currentReading : AmmoniaData;
  calibration : CalibrationData;
  ammoniaBuffer : list R;
  bufferIndex : nat;
  rtcData : RtcData;
  eeprom : EEPROM;
  mqttLog : list Message
}.

Definition set_calibration (c : CalibrationData) (g : Globals) : Globals :=
  mkGlobals (currentReading g) c (ammoniaBuffer g) (bufferIndex g)
            (rtcData g) (eeprom g) (mqttLog g).
Definition set_eeprom (e : EEPROM) (g : Globals) : Globals :=
  mkGlobals (currentReading g) (calibration g) (ammoniaBuffer g) (bufferIndex g)
            (rtcData g) e (mqttLog g).

(** What one call of a routine observes of the hardware. *)
Record Inputs := mkInputs {
  tempSensorC : R;            (* tempSensor.getTempCByIndex(0) *)
  phResponse : R;             (* response.toFloat() of the pH probe *)
  analogRead : nat -> Z;      (* i-th analogRead(AMMONIA_ADC_PIN) *)
  millis : Z;                 (* millis() when the reading is stamped *)
  millisAtAlert : Z;          (* millis() inside publishToxicAlert *)
  mqttConnected : bool        (* mqttClient.connected() *)
}.

Definition readTemperature (inp : Inputs) : R :=
  let temp := tempSensorC inp in
  if (temp >? -50.0) && (temp <? 125.0) then temp else REFERENCE_TEMP.

Definition readPH (inp : Inputs) : R :=
  let pH := phResponse inp in
  if (pH >=? 0.0) && (pH <=? 14.0) then pH else 7.0.

Definition readISEVoltage (analogRead : nat -> Z) : R :=
  let '(voltageSum, validReadings) :=
    for_loop 10
      (fun (acc : R * Z) i =>
         let rawReading := analogRead i in
         let voltage := (IZR rawReading * 3.3) / 4095.0 in
         if (voltage >=? 0.0) && (voltage <=? 3.3)
         then (fst acc + voltage, (snd acc + 1)%Z)
         else acc)
      (0, 0%Z) in
  if (validReadings >? 0)%Z then voltageSum / IZR validReadings else 0.0.

Definition calculateAmmoniaConcentration (calibration : CalibrationData)
    (voltage temperature : R) : R :=
  if negb (isValid calibration) then 0.0
  else
    let tempCompensatedSlope :=
      slope calibration * (temperature + 273.15) / (REFERENCE_TEMP + 273.15) in
    let logConcentration := (voltage - intercept calibration) / tempCompensatedSlope in
    let concentration := pow10 logConcentration in
    concentration.

Definition calculateFreeAmmoniaFraction (pH temperature : R) : R :=
  let pKa := PKA_25C + (TEMP_COEFF * (temperature - REFERENCE_TEMP)) in
  let powerTerm := pKa - pH in
  let fraction := 1.0 / (1.0 + pow10 powerTerm) in
  fraction.

Definition assessToxicity (freeAmmonia : R) : string :=
  if freeAmmonia >=? TOXIC_ACUTE_THRESHOLD then "ACUTE"%string
  else if freeAmmonia >=? TOXIC_CRITICAL_THRESHOLD then "CRITICAL"%string
  else if freeAmmonia >=? TOXIC_WARNING_THRESHOLD then "WARNING"%string
  else "SAFE"%string.

Definition calibrationStandards : list R :=
  [CALIB_STANDARD_1; CALIB_STANDARD_2; CALIB_STANDARD_3].

(** The four running sums of the regression loop. *)
Record Sums := mkSums { sumX : R; sumY : R; sumXY : R; sumX2 : R }.

(** The regression.  On reals the product under the square root is never
    negative, and a division by a zero spread of the standards is the
    unspecified real [x * / 0]; the fixed standards 1, 10, 100 have spread
    6. *)
Definition calculateCalibrationCurve (stds volts : list R)
    (calibration : CalibrationData) : CalibrationData :=
  let logStandards := map (fun i => log10 (at_index stds i)) (seq 0 CALIBRATION_POINTS) in
  let n := CALIBRATION_POINTS in
  let s :=
    for_loop n
      (fun acc i =>
         mkSums (sumX acc + at_index logStandards i)
                (sumY acc + at_index volts i)
                (sumXY acc + at_index logStandards i * at_index volts i)
                (sumX2 acc + at_index logStandards i * at_index logStandards i))
      (mkSums 0 0 0 0) in
  let slope' := (INR n * sumXY s - sumX s * sumY s) / (INR n * sumX2 s - sumX s * sumX s) in
  let intercept' := (sumY s - slope' * sumX s) / INR n in
  let sumY2 := for_loop n (fun acc i => acc + at_index volts i * at_index volts i) 0 in
  let numerator := INR n * sumXY s - sumX s * sumY s in
  let denominator :=
    sqrt ((INR n * sumX2 s - sumX s * sumX s) * (INR n * sumY2 - sumY s * sumY s)) in
  let correlation := if Rneqb denominator 0 then numerator / denominator else 0.0 in
  mkCalibrationData (isValid calibration) slope' intercept'
                    (standards calibration) (voltages calibration)
                    (calibrationDate calibration) correlation.

Definition saveCalibrationData (g : Globals) : Globals :=
  let c := calibration g in
  let e0 := eeprom g in
  let e1 := put_bool CALIB_VALID_ADDR (isValid c) e0 in
  let e2 := put_float CALIB_SLOPE_ADDR (slope c) e1 in
  let e3 := put_float CALIB_INTERCEPT_ADDR (intercept c) e2 in
  let e4 := put_ulong CALIB_DATE_ADDR (calibrationDate c) e3 in
  set_eeprom e4 g.

Definition loadCalibrationData (g : Globals) : Globals :=
  let c := calibration g in
  let e := eeprom g in
  set_calibration
    (mkCalibrationData (ee_bool e CALIB_VALID_ADDR)
                       (ee_float e CALIB_SLOPE_ADDR)
                       (ee_float e CALIB_INTERCEPT_ADDR)
                       (standards c) (voltages c)
                       (ee_ulong e CALIB_DATE_ADDR)
                       (correlationCoeff c))
    g.

(** [performCalibration] from "Calculate calibration curve" on: the fit, the
    validation and the store, given the three recorded voltages. *)
Definition fitAndValidate (volts : list R) (now : Z) (g : Globals) : Globals :=
  let g1 := set_calibration
              (calculateCalibrationCurve calibrationStandards volts (calibration g)) g in
  let c1 := calibration g1 in
  if (Rabs (slope c1) >=? MIN_ACCEPTABLE_SLOPE) &&
     (Rabs (slope c1) <=? MAX_ACCEPTABLE_SLOPE)
  then
    let c2 := mkCalibrationData true (slope c1) (intercept c1)
                (map (at_index calibrationStandards) (seq 0 CALIBRATION_POINTS))
                (map (at_index volts) (seq 0 CALIBRATION_POINTS))
                now (correlationCoeff c1) in
    saveCalibrationData (set_calibration c2 g1)
  else
    set_calibration
      (mkCalibrationData false (slope c1) (intercept c1) (standards c1) (voltages c1)
                         (calibrationDate c1) (correlationCoeff c1))
      g1.

(** A whole run in which the operator presses the button for each standard;
    [reads i] gives the ADC samples taken for standard [i].  The source waits
    for the button without a timeout, so a run without the three presses
    does not return. *)
Definition performCalibration (reads : nat -> nat -> Z) (now : Z) (g : Globals) : Globals :=
  let volts := map (fun i => readISEVoltage (reads i)) (seq 0 CALIBRATION_POINTS) in
  fitAndValidate volts now g.

Definition publishToxicAlert (inp : Inputs) (g : Globals) : list Message :=
  if negb (mqttConnected inp) then mqttLog g
  else mqttLog g ++ [ToxicAlertMsg (freeAmmonia (currentReading g))
                                   (toxicityLevel (currentReading g))
                                   (millisAtAlert inp)].

Definition publishSensorData (inp : Inputs) (g : Globals) : list Message :=
  if negb (mqttConnected inp) then mqttLog g
  else mqttLog g ++ [SensorDataMsg (currentReading g) (bootCount (rtcData g))].

(** [currentReading.dataValid = b]. *)
Definition set_dataValid (b : bool) (r : AmmoniaData) : AmmoniaData :=
  mkAmmoniaData (totalAmmonia r) (freeAmmonia r) (ammonium r) (pH r) (temperature r)
                (rawVoltage r) (readingSlope r) (timestamp r) (toxicityLevel r) b.

Definition takeAmmoniaMeasurement (inp : Inputs) (g : Globals) : Globals :=
  let temperature := readTemperature inp in
  let pH := readPH inp in
  let iseVoltage := readISEVoltage (analogRead inp) in
  let totalAmmonia := calculateAmmoniaConcentration (calibration g) iseVoltage temperature in
  let freeAmmoniaFraction := calculateFreeAmmoniaFraction pH temperature in
  let freeAmmonia := totalAmmonia * freeAmmoniaFraction in
  let ammonium := totalAmmonia * (1.0 - freeAmmoniaFraction) in
  if (totalAmmonia >=? AMMONIA_MIN_RANGE) && (totalAmmonia <=? AMMONIA_MAX_RANGE)
  then
    let buffer := <[bufferIndex g := totalAmmonia]> (ammoniaBuffer g) in
    let index := ((bufferIndex g + 1) mod MAX_READINGS_BUFFER)%nat in
    let avgAmmonia :=
      for_loop MAX_READINGS_BUFFER (fun acc i => acc + at_index buffer i) 0
      / INR MAX_READINGS_BUFFER in
    let reading :=
      mkAmmoniaData avgAmmonia freeAmmonia ammonium pH temperature iseVoltage
                    (slope (calibration g)) (millis inp)
                    (assessToxicity freeAmmonia) true in
    let rtc0 := rtcData g in
    let alert := freeAmmonia >=? TOXIC_WARNING_THRESHOLD in
    let rtc := mkRtcData (bootCount rtc0) totalAmmonia freeAmmonia pH temperature alert in
    let g1 := mkGlobals reading (calibration g) buffer index rtc (eeprom g) (mqttLog g) in
    let g2 := if alert
              then mkGlobals reading (calibration g) buffer index rtc (eeprom g)
                             (publishToxicAlert inp g1)
              else g1 in
    mkGlobals reading (calibration g) buffer index rtc (eeprom g)
              (publishSensorData inp g2)
  else
    mkGlobals (set_dataValid false (currentReading g))
              (calibration g) (ammoniaBuffer g) (bufferIndex g) (rtcData g) (eeprom g)
              (mqttLog g).

(** The globals at power-on: statics are zero-initialised and
    [initializeSensors] clears the averaging buffer; the EEPROM keeps what it
    held. *)
Definition bootGlobals (e : EEPROM) : Globals :=
  mkGlobals
    (mkAmmoniaData 0 0 0 0 0 0 0 0%Z EmptyString false)
    (mkCalibrationData false 0 0 [0; 0; 0] [0; 0; 0] 0%Z 0)
    (replicate MAX_READINGS_BUFFER 0)
    0%nat
    (mkRtcData 0%Z 0 0 0 0 false)
    e
    [].

End Ammonia.

(** ** The nitrite/nitrate module *)

Module NitriteNitrate.
Local Open Scope R_scope.
Local Open Scope float_scope.

(** [struct SensorConfig] with its default member initialisers. *)
Record SensorConfig := mkSensorConfig {
  nitrite_slope : R;
  nitrite_intercept : R;
  nitrate_slope : R;
  nitrate_intercept : R;
  temp_coefficient : R;
  ph_compensation : R;
  conductivity_compensation : R;
  measurement_interval : Z;
  calibration_interval : Z;
  dummy_mode : bool;
  alarm_threshold_no2 : R;
  alarm_threshold_no3 : R
}.

Definition defaultConfig : SensorConfig :=
  mkSensorConfig (-59.16) 0.0 (-59.16) 0.0 0.02 0.1 0.05 30000 86400000 false 0.5 50.0.

(** [struct MeasurementData]. *)
Record MeasurementData := mkMeasurementData {
  nitrite_voltage : R;
  nitrate_voltage : R;
  nitrite_concentration : R;
  nitrate_concentration : R;
  temperature : R;
  ph_value : R;
  conductivity : R;
  timestamp : Z;
  valid : bool;
  quality_score : Z
}.

(** [struct CalibrationData]. *)
Record CalibrationData := mkCalibrationData {
  nitrite_standards : list R;
  nitrate_standards : list R;
  nitrite_voltages : list R;
  nitrate_voltages : list R;
  calibrated : bool;
  last_calibration : Z
}.

(** The JSON documents handed to [client.publish]. *)
Inductive Message :=
| DataMsg (d : MeasurementData) (calibrated_flag sensor_health dummy : bool)
| AlertMsg (alert_type : string) (value threshold : R) (ts : Z).

Record Globals := mkGlobals {
  config : SensorConfig;
  calibration : CalibrationData;
  sensorHealthy : bool;
  consecutiveErrors : Z;
  mqttLog : list Message
}.

(** What one [performMeasurement] observes: the ADC samples of both
    electrodes, the temperature probe, the clock at its two reads, the raw
    draws behind the successive [random(lo, hi)] calls, and the contents of
    the uninitialised local [data]. *)
Record Inputs := mkInputs {
  analogNitrite : nat -> Z;
  analogNitrate : nat -> Z;
  tempSensorC : R;
  millis : Z;
  millisAtScore : Z;
  rawRandom : nat -> Z;
  stackData : MeasurementData
}.

(** Arduino's [random(howsmall, howbig)] over the raw draw [r >= 0]. *)
Definition random (howsmall howbig r : Z) : Z :=
  if (howsmall >=? howbig)%Z then howsmall
  else (Z.rem r (howbig - howsmall) + howsmall)%Z.

Definition readAnalogVoltage (analogRead : nat -> Z) : R :=
  let rawValue := for_loop 10 (fun acc i => (acc + analogRead i)%Z) 0%Z in
  let rawValue := Z.quot rawValue 10 in
  (IZR rawValue * 3.3) / 4095.0 * 1000.0.

Definition set_concentrations (no2 no3 : R) (d : MeasurementData) : MeasurementData :=
  mkMeasurementData (nitrite_voltage d) (nitrate_voltage d) no2 no3 (temperature d)
                    (ph_value d) (conductivity d) (timestamp d) (valid d) (quality_score d).

Definition calculateConcentrations (g : Globals) (data : MeasurementData) : MeasurementData :=
  if calibrated (calibration g) then
    set_concentrations
      (pow10 ((nitrite_voltage data - at_index (nitrite_voltages (calibration g)) 1)
              / nitrite_slope (config g)))
      (pow10 ((nitrate_voltage data - at_index (nitrate_voltages (calibration g)) 1)
              / nitrate_slope (config g)))
      data
  else
    set_concentrations
      (pow10 ((nitrite_voltage data - nitrite_intercept (config g)) / nitrite_slope (config g)))
      (pow10 ((nitrate_voltage data - nitrate_intercept (config g)) / nitrate_slope (config g)))
      data.

Definition applyTemperatureCompensation (g : Globals) (data : MeasurementData)
    : MeasurementData :=
  let temp_factor := 1.0 + temp_coefficient (config g) * (temperature data - 25.0) in
  set_concentrations (nitrite_concentration data * temp_factor)
                     (nitrate_concentration data * temp_factor) data.

Definition applyCrossSensorCompensation (g : Globals) (data : MeasurementData)
    : MeasurementData :=
  let ph_factor := 1.0 + ph_compensation (config g) * (ph_value data - 7.0) in
  let no2 := nitrite_concentration data * ph_factor in
  let cond_factor :=
    1.0 + conductivity_compensation (config g) * (conductivity data - 500.0) / 500.0 in
  set_concentrations (no2 * cond_factor) (nitrate_concentration data * cond_factor) data.

Definition generateDummyData (inp : Inputs) (data : MeasurementData) : MeasurementData :=
  let r := rawRandom inp in
  mkMeasurementData
    (100.0 + IZR (random (-500) 500 (r 3%nat)))
    (200.0 + IZR (random (-500) 500 (r 4%nat)))
    (0.1 + IZR (random 0 50 (r 0%nat)) / 100.0)
    (5.0 + IZR (random 0 200 (r 1%nat)) / 10.0)
    (20.0 + IZR (random (-30) 150 (r 2%nat)) / 10.0)
    (7.0 + IZR (random (-20) 20 (r 5%nat)) / 10.0)
    (500.0 + IZR (random (-200) 200 (r 6%nat)))
    (timestamp data)
    true
    (85 + random 0 15 (r 7%nat)).

Definition calculateQualityScore (g : Globals) (now : Z) (data : MeasurementData) : Z :=
  let score := 100%Z in
  let score := if nitrite_concentration data >? 5.0 then (score - 20)%Z else score in
  let score := if nitrate_concentration data >? 200.0 then (score - 20)%Z else score in
  let score := if (temperature data <? 10) || (temperature data >? 30)
               then (score - 10)%Z else score in
  let score := if negb (calibrated (calibration g)) then (score - 30)%Z else score in
  let calibration_age := ((now - last_calibration (calibration g)) mod 2 ^ 32)%Z in
  let score := if (calibration_age >? 604800000)%Z then (score - 20)%Z else score in
  Z.max 0 score.

Definition publishData (g : Globals) (data : MeasurementData) : list Message :=
  mqttLog g ++ [DataMsg data (calibrated (calibration g)) (sensorHealthy g)
                        (dummy_mode (config g))].

Definition handleAlarms (g : Globals) (data : MeasurementData) (log : list Message)
    : list Message :=
  let log :=
    if nitrite_concentration data >? alarm_threshold_no2 (config g)
    then log ++ [AlertMsg "high_nitrite" (nitrite_concentration data)
                          (alarm_threshold_no2 (config g)) (timestamp data)]
    else log in
  if nitrate_concentration data >? alarm_threshold_no3 (config g)
  then log ++ [AlertMsg "high_nitrate" (nitrate_concentration data)
                        (alarm_threshold_no3 (config g)) (timestamp data)]
  else log.

(** [performMeasurement]; the local [data] is returned next to the globals. *)
Definition performMeasurement (inp : Inputs) (g : Globals) : Globals * MeasurementData :=
  let d0 := stackData inp in
  let data := mkMeasurementData (nitrite_voltage d0) (nitrate_voltage d0)
                (nitrite_concentration d0) (nitrate_concentration d0) (temperature d0)
                (ph_value d0) (conductivity d0) (millis inp) (valid d0) (quality_score d0) in
  let data :=
    if dummy_mode (config g) then generateDummyData inp data
    else
      let data := mkMeasurementData
                    (readAnalogVoltage (analogNitrite inp))
                    (readAnalogVoltage (analogNitrate inp))
                    (nitrite_concentration data) (nitrate_concentration data)
                    (tempSensorC inp) 7.0 500.0
                    (timestamp data) (valid data) (quality_score data) in
      let data := calculateConcentrations g data in
      let data := applyTemperatureCompensation g data in
      applyCrossSensorCompensation g data in
  let ok :=
    (nitrite_concentration data >=? 0) && (nitrite_concentration data <=? 100) &&
    (nitrate_concentration data >=? 0) && (nitrate_concentration data <=? 1000) &&
    (temperature data >? -10) && (temperature data <? 50) in
  let data := mkMeasurementData (nitrite_voltage data) (nitrate_voltage data)
                (nitrite_concentration data) (nitrate_concentration data)
                (temperature data) (ph_value data) (conductivity data)
                (timestamp data) ok (quality_score data) in
  if valid data then
    let data := mkMeasurementData (nitrite_voltage data) (nitrate_voltage data)
                  (nitrite_concentration data) (nitrate_concentration data)
                  (temperature data) (ph_value data) (conductivity data)
                  (timestamp data) (valid data)
                  (calculateQualityScore g (millisAtScore inp) data) in
    (mkGlobals (config g) (calibration g) (sensorHealthy g) 0%Z
               (handleAlarms g data (publishData g data)),
     data)
  else
    (mkGlobals (config g) (calibration g) (sensorHealthy g)
               (consecutiveErrors g + 1)%Z (mqttLog g),
     data).

End NitriteNitrate.

(** ** The organic-load module and its sample-preparation state machine *)

Module TocBod.
Local Open Scope R_scope.
Local Open Scope float_scope.

Definition BOD_TEMPERATURE_COEFFICIENT : R := 0.02.

(** [enum SampleState]. *)
Inductive SampleState := IDLE | SAMPLING | HEATING | MEASURING | CLEANING.

Definition SampleState_eqb (a b : SampleState) : bool :=
  match a, b with
  | IDLE, IDLE | SAMPLING, SAMPLING | HEATING, HEATING
  | MEASURING, MEASURING | CLEANING, CLEANING => true
  | _, _ => false
  end.

(** The globals the state machine reads and writes, and the three output
    pins it drives. *)
Record Globals := mkGlobals {
  currentState : SampleState;
  stateStartTime : Z;
  lastTOC : R;
  lastBOD : R;
  lastTemperature : R;
  sensorHealthy : bool;
  consecutiveErrors : Z;
  sampleValvePin : bool;
  heaterPin : bool;
  reagentPumpPin : bool
}.

(** The static initialisers and the pin writes of [setup]. *)
Definition initGlobals : Globals :=
  mkGlobals IDLE 0 0.0 0.0 0.0 true 0 false false false.

(** What one pass of [handleSampleStateMachine] observes: the clock when
    [stateTime] is computed, the clock when [stateStartTime] is assigned, and
    the three values [takeMeasurement] obtains before compensation. *)
Record Inputs := mkInputs {
  millis : Z;
  millisAtSet : Z;
  toc : R;
  bod : R;
  tempC : R
}.

Definition set_state (s : SampleState) (t : Z) (g : Globals) : Globals :=
  mkGlobals s t (lastTOC g) (lastBOD g) (lastTemperature g) (sensorHealthy g)
            (consecutiveErrors g) (sampleValvePin g) (heaterPin g) (reagentPumpPin g).

Definition set_pins (valve heater pump : bool) (g : Globals) : Globals :=
  mkGlobals (currentState g) (stateStartTime g) (lastTOC g) (lastBOD g)
            (lastTemperature g) (sensorHealthy g) (consecutiveErrors g)
            valve heater pump.

Definition applyTemperatureCompensation (value temperature : R) (isTOC : bool) : R :=
  let referenceTemp := 20.0 in
  let coefficient := if isTOC then 0.01 else BOD_TEMPERATURE_COEFFICIENT in
  let compensation := 1.0 + coefficient * (temperature - referenceTemp) in
  value * compensation.

Definition isValidReading (toc bod temperature : R) : bool :=
  (toc >=? 0.0) && (toc <=? 1000.0) &&
  (bod >=? 0.0) && (bod <=? 500.0) &&
  (temperature >=? 0.0) && (temperature <=? 50.0).

Definition handleSensorError (g : Globals) : Globals :=
  let errors := (consecutiveErrors g + 1)%Z in
  let g := mkGlobals (currentState g) (stateStartTime g) (lastTOC g) (lastBOD g)
                     (lastTemperature g) (errors <? 3)%Z errors
                     (sampleValvePin g) (heaterPin g) (reagentPumpPin g) in
  if (errors >=? 5)%Z then
    mkGlobals IDLE (stateStartTime g) (lastTOC g) (lastBOD g) (lastTemperature g)
              (sensorHealthy g) 0 false false false
  else g.

(** [takeMeasurement], without the documents it publishes. *)
Definition takeMeasurement (inp : Inputs) (g : Globals) : Globals :=
  let temperature := tempC inp in
  let toc := applyTemperatureCompensation (toc inp) temperature true in
  let bod := applyTemperatureCompensation (bod inp) temperature false in
  if isValidReading toc bod temperature then
    mkGlobals (currentState g) (stateStartTime g) toc bod temperature true 0
              (sampleValvePin g) (heaterPin g) (reagentPumpPin g)
  else handleSensorError g.

Definition startMeasurementCycle (now : Z) (g : Globals) : Globals :=
  if SampleState_eqb (currentState g) IDLE then set_state SAMPLING now g else g.

(** [millis() - stateStartTime] on [unsigned long]. *)
Definition elapsed (now start : Z) : Z := ((now - start) mod 2 ^ 32)%Z.

Definition handleSampleStateMachine (inp : Inputs) (g : Globals) : Globals :=
  let stateTime := elapsed (millis inp) (stateStartTime g) in
  match currentState g with
  | IDLE => g
  | SAMPLING =>
      let g := set_pins true (heaterPin g) (reagentPumpPin g) g in
      if (stateTime >? 30000)%Z then
        let g := set_pins false (heaterPin g) (reagentPumpPin g) g in
        set_state HEATING (millisAtSet inp) g
      else g
  | HEATING =>
      let g := set_pins (sampleValvePin g) true (reagentPumpPin g) g in
      if (stateTime >? 60000)%Z then
        let g := set_pins (sampleValvePin g) false (reagentPumpPin g) g in
        set_state MEASURING (millisAtSet inp) g
      else g
  | MEASURING =>
      if (stateTime >? 5000)%Z then
        let g := takeMeasurement inp g in
        set_state CLEANING (millisAtSet inp) g
      else g
  | CLEANING =>
      let g := set_pins (sampleValvePin g) (heaterPin g) true g in
      if (stateTime >? 15000)%Z then
        let g := set_pins (sampleValvePin g) (heaterPin g) false g in
        set_state IDLE (stateStartTime g) g
      else g
  end.

(** The successor of a state in the preparation cycle and the time the
    machine must have spent in a state before it leaves it. *)
Definition next (s : SampleState) : SampleState :=
  match s with
  | IDLE => SAMPLING
  | SAMPLING => HEATING
  | HEATING => MEASURING
  | MEASURING => CLEANING
  | CLEANING => IDLE
  end.

Definition dwell (s : SampleState) : Z :=
  match s with
  | IDLE => 0
  | SAMPLING => 30000
  | HEATING => 60000
  | MEASURING => 5000
  | CLEANING => 15000
  end.

(** What the host loop and the command handlers do to the machine: a pass of
    [handleSampleStateMachine], or a request to start a cycle (the timer of
    [loop], the serial command SAMPLE, the MQTT message "sample"). *)
Inductive Event :=
| Tick (inp : Inputs)
| StartRequest (now : Z).

Definition apply_event (g : Globals) (e : Event) : Globals :=
  match e with
  | Tick inp => handleSampleStateMachine inp g
  | StartRequest now => startMeasurementCycle now g
  end.

(** The states the machine is in after each event of a run. *)
Fixpoint trace (g : Globals) (es : list Event) : list SampleState :=
  match es with
  | [] => []
  | e :: es' => let g' := apply_event g e in currentState g' :: trace g' es'
  end.

Definition run (g : Globals) (es : list Event) : Globals :=
  fold_left apply_event es g.

(** A sequence of states in which every state is the one before it or its
    successor in the cycle. *)
Fixpoint follows_cycle (s : SampleState) (l : list SampleState) : Prop :=
  match l with
  | [] => True
  | s' :: l' => (s' = s \/ s' = next s) /\ follows_cycle s' l'
  end.

(** A pass that observes the clock at [t] throughout and measures mid-range
    values. *)
Definition tickAt (t : Z) : Event := Tick (mkInputs t t 25.0 15.0 22.0).

End TocBod.
(** ** Concrete states and inputs of the scenarios *)

Module Scenario.
Import Ammonia.
Local Open Scope R_scope.

(** An EEPROM that holds no calibration. *)
Definition blankEEPROM : EEPROM :=
  mkEEPROM (fun _ => false) (fun _ => 0) (fun _ => 0%Z).

(** A converter that returns the same count at every sample. *)
Definition steadyADC (r : Z) : nat -> Z := fun _ => r.

(** The curve of the calibration scenario: standards 1, 10, 100 mg/L read
    at 200, 141 and 82. *)
Definition scenarioCurve : CalibrationData :=
  mkCalibrationData true (-59) 200 [1.0; 10.0; 100.0] [200; 141; 82] 1000 (-1).

(** A valid curve whose intercept is the voltage of an idle converter. *)
Definition zeroInterceptCurve : CalibrationData :=
  mkCalibrationData true (-59) 0 [1.0; 10.0; 100.0] [0; -59; -118] 1000 (-1).

(** The module after a calibration that stored [c]. *)
Definition calibratedWith (c : CalibrationData) : Globals :=
  saveCalibrationData (set_calibration c (bootGlobals blankEEPROM)).

(** The module restarted on the EEPROM of [g]. *)
Definition restart (g : Globals) : Globals :=
  loadCalibrationData (bootGlobals (eeprom g)).

(** A sampling cycle at the given probe temperature and pH, converter idle. *)
Definition idleInputs (temp ph : R) : Inputs :=
  mkInputs temp ph (steadyADC 0) 5000 5001 true.

(** The sum of the slots of the averaging buffer. *)
Definition buffer_sum (buffer : list R) : R := fold_right Rplus 0 buffer.

(** The total-ammonia value a cycle computes before any averaging. *)
Definition instantaneousTotal (inp : Inputs) (g : Globals) : R :=
  calculateAmmoniaConcentration (calibration g) (readISEVoltage (analogRead inp))
                                (readTemperature inp).

(** The concentration formula as the specification words it. *)
Definition spec_logLinear (v T s b : R) : R :=
  Rpower 10 ((v - b) / (s * ((T + 273.15) / (25 + 273.15)))).

(** The free-ammonia fraction as the specification words it. *)
Definition spec_freeFraction (p T : R) : R :=
  1 / (1 + Rpower 10 ((9.25 + 0.0324 * (T - 25)) - p)).

End Scenario.

Module NitriteScenario.
Import NitriteNitrate.
Local Open Scope R_scope.

(** The globals as their initialisers leave them: default configuration,
    no calibration. *)
Definition defaultGlobals : Globals :=
  mkGlobals defaultConfig
            (mkCalibrationData [0.1; 1.0; 10.0] [1.0; 10.0; 100.0]
                               [0; 0; 0] [0; 0; 0] false 0%Z)
            true 0%Z [].

Definition stackZero : MeasurementData :=
  mkMeasurementData 0 0 0 0 0 0 0 0%Z false 0%Z.

(** A cycle with both converters idle at the given probe temperature. *)
Definition idleInputs (temp : R) : Inputs :=
  mkInputs (fun _ => 0%Z) (fun _ => 0%Z) temp 1000 1000 (fun _ => 0%Z) stackZero.

(** The default model of the module for one electrode: the Nernst inversion
    with the default slope and intercept, then the three compensation
    factors. *)
Definition defaultModel (g : Globals) (slope intercept voltage temp ph_factor : R) : R :=
  pow10 ((voltage - intercept) / slope)
  * (1.0 + temp_coefficient (config g) * (temp - 25.0))
  * ph_factor
  * (1.0 + conductivity_compensation (config g) * (500.0 - 500.0) / 500.0).

End NitriteScenario.

(** ** Further routines of the ammonia module *)

Module AmmoniaMore.
Import Ammonia.
Local Open Scope R_scope.
Local Open Scope float_scope.

Definition LOW_POWER_THRESHOLD : R := 3.4.

(** [checkSensorHealth], at clock [now]; the age is an [unsigned long]
    difference divided by the milliseconds of a day. *)
Definition checkSensorHealth (now : Z) (calibration : CalibrationData) : bool :=
  if negb (isValid calibration) then false
  else if Rabs (slope calibration) <? MIN_ACCEPTABLE_SLOPE then false
  else
    let daysSinceCalibration :=
      (((now - calibrationDate calibration) mod 2 ^ 32) / (24 * 60 * 60 * 1000))%Z in
    if (daysSinceCalibration >? 7)%Z then false else true.

(** [checkLowPowerCondition] over the sample of the battery divider. *)
Definition checkLowPowerCondition (rawBattery : Z) : bool :=
  let batteryVoltage := IZR rawBattery * 3.3 / 4095.0 * 2.0 in
  batteryVoltage <? LOW_POWER_THRESHOLD.

(** Successive sampling cycles, one per element of [inps]. *)
Definition runCycles (g : Globals) (inps : list Inputs) : Globals :=
  fold_left (fun g inp => takeAmmoniaMeasurement inp g) inps g.

(** The rank of a toxicity level in the order SAFE, WARNING, CRITICAL,
    ACUTE. *)
Definition severity (level : string) : nat :=
  if String.eqb level "ACUTE" then 3
  else if String.eqb level "CRITICAL" then 2
  else if String.eqb level "WARNING" then 1
  else 0.

(** Every slot of the averaging buffer holds a value between 0 and the top
    of the range. *)
Definition buffer_in_range (buffer : list R) : Prop :=
  Forall (fun x => 0 <= x <= AMMONIA_MAX_RANGE) buffer.

(** The shape the averaging state has after start-up and keeps: ten slots in
    range, the index inside them, and a reading marked valid carries a
    positive total within the range. *)
Definition averaging_wf (g : Globals) : Prop :=
  length (ammoniaBuffer g) = MAX_READINGS_BUFFER
  /\ buffer_in_range (ammoniaBuffer g)
  /\ (bufferIndex g < MAX_READINGS_BUFFER)%nat
  /\ (dataValid (currentReading g) = true ->
      0 < totalAmmonia (currentReading g) <= AMMONIA_MAX_RANGE).

End AmmoniaMore.

(** ** Further routines of the nitrite/nitrate module *)

Module NitriteMore.
Import NitriteNitrate.
Local Open Scope R_scope.
Local Open Scope float_scope.

Definition maxConsecutiveErrors : Z := 5.

(** The health document [checkSensorHealth] publishes. *)
Record HealthAlert := mkHealthAlert { alert_errors : Z; alert_timestamp : Z }.

(** [checkSensorHealth]; the alert it publishes, if any, is returned next to
    the globals. *)
Definition checkSensorHealth (now : Z) (g : Globals) : Globals * option HealthAlert :=
  if (consecutiveErrors g >=? maxConsecutiveErrors)%Z then
    (mkGlobals (config g) (calibration g) false (consecutiveErrors g) (mqttLog g),
     Some (mkHealthAlert (consecutiveErrors g) now))
  else
    (mkGlobals (config g) (calibration g) true (consecutiveErrors g) (mqttLog g),
     None).

(** What [EEPROM.put(0, config)] and [EEPROM.put(sizeof(config), calibration)]
    leave in the EEPROM. *)
Record EEPROMImage := mkEEPROMImage {
  savedConfig : SensorConfig;
  savedCalibration : CalibrationData
}.

Definition saveSensorConfig (g : Globals) : EEPROMImage :=
  mkEEPROMImage (config g) (calibration g).

Definition loadSensorConfig (image : EEPROMImage) (g : Globals) : Globals :=
  mkGlobals (savedConfig image) (savedCalibration image) (sensorHealthy g)
            (consecutiveErrors g) (mqttLog g).

(** [performCalibration] once the operator has stepped through the six
    standards; [readsNo2 i] and [readsNo3 i] are the ADC samples taken for
    standard [i] of either electrode. *)
Definition performCalibration (readsNo2 readsNo3 : nat -> nat -> Z) (now : Z)
    (g : Globals) : Globals * EEPROMImage :=
  let c := calibration g in
  let no2 := map (fun i => readAnalogVoltage (readsNo2 i)) (seq 0 3) in
  let no3 := map (fun i => readAnalogVoltage (readsNo3 i)) (seq 0 3) in
  let c := mkCalibrationData (nitrite_standards c) (nitrate_standards c) no2 no3
                             true now in
  let g := mkGlobals (config g) c (sensorHealthy g) (consecutiveErrors g) (mqttLog g) in
  (g, saveSensorConfig g).

(** Successive measurements, one per element of [inps]. *)
Definition runMeasurements (g : Globals) (inps : list Inputs) : Globals :=
  fold_left (fun g inp => fst (performMeasurement inp g)) inps g.

(** The points a measurement loses in [calculateQualityScore]. *)
Definition penalties (g : Globals) (now : Z) (d : MeasurementData) : Z :=
  let high_no2 := nitrite_concentration d >? 5.0 in
  let high_no3 := nitrate_concentration d >? 200.0 in
  let off_band := (temperature d <? 10) || (temperature d >? 30) in
  let stale := ((now - last_calibration (calibration g)) mod 2 ^ 32 >? 604800000)%Z in
  ((if high_no2 then 20 else 0) + (if high_no3 then 20 else 0)
   + (if off_band then 10 else 0)
   + (if calibrated (calibration g) then 0 else 30)
   + (if stale then 20 else 0))%Z.

(** The number of alarms a measurement raises. *)
Definition alarms_raised (g : Globals) (d : MeasurementData) : nat :=
  let no2 := nitrite_concentration d >? alarm_threshold_no2 (config g) in
  let no3 := nitrate_concentration d >? alarm_threshold_no3 (config g) in
  ((if no2 then 1 else 0) + (if no3 then 1 else 0))%nat.

(** The voltage the Nernst inversion is taken from: the one recorded for the
    second standard once calibrated, the configured intercept before. *)
Definition offsetNo2 (g : Globals) : R :=
  if calibrated (calibration g) then at_index (nitrite_voltages (calibration g)) 1
  else nitrite_intercept (config g).
Definition offsetNo3 (g : Globals) : R :=
  if calibrated (calibration g) then at_index (nitrate_voltages (calibration g)) 1
  else nitrate_intercept (config g).

(** The default globals with dummy mode switched on. *)
Definition dummyGlobals : Globals :=
  mkGlobals
    (mkSensorConfig (-59.16) 0.0 (-59.16) 0.0 0.02 0.1 0.05 30000 86400000 true 0.5 50.0)
    (mkCalibrationData [0.1; 1.0; 10.0] [1.0; 10.0; 100.0] [0; 0; 0] [0; 0; 0] false 0%Z)
    true 0%Z [].

End NitriteMore.

(** ** Further routines of the organic-load module *)

Module TocBodMore.
Import TocBod.
Local Open Scope R_scope.
Local Open Scope float_scope.

Definition TOC_SAMPLES : nat := 10.
Definition BOD_SAMPLES : nat := 5.
Definition TOC_REFERENCE_VOLTAGE : R := 3.3.
Definition TOC_RESOLUTION : Z := 4095.
Definition TOC_ZERO_OFFSET : R := 0.1.
Definition TOC_SPAN_FACTOR : R := 1.25.
Definition BOD_REFERENCE_VOLTAGE : R := 3.3.
Definition BOD_RESOLUTION : Z := 4095.
Definition BOD_CALIBRATION_FACTOR : R := 0.85.

Definition tocHighAlarm : R := 50.0.
Definition bodHighAlarm : R := 30.0.
Definition tocCriticalAlarm : R := 100.0.
Definition bodCriticalAlarm : R := 60.0.

(** [struct CalibrationData] of this module. *)
Record CalibrationData := mkCalibrationData {
  toc_slope : R;
  toc_intercept : R;
  bod_slope : R;
  bod_intercept : R;
  temperature_coefficient : R;
  last_calibration : Z
}.

(** The accumulation loop shared by [readTOC] and [readBOD]: convert each
    sample, keep it when it lies in [0, top]. *)
Definition sample_loop (n : nat) (reference : R) (resolution : Z) (slope intercept top : R)
    (analogRead : nat -> Z) : R * Z :=
  for_loop n
    (fun (acc : R * Z) i =>
       let rawValue := analogRead i in
       let voltage := (IZR rawValue * reference) / IZR resolution in
       let value := (voltage - intercept) / slope in
       if (value >=? 0.0) && (value <=? top)
       then (fst acc + value, (snd acc + 1)%Z)
       else acc)
    (0.0, 0%Z).

Definition readTOC (calibration : CalibrationData) (analogRead : nat -> Z) : R :=
  let acc := sample_loop TOC_SAMPLES TOC_REFERENCE_VOLTAGE TOC_RESOLUTION
               (toc_slope calibration) (toc_intercept calibration) 1000.0 analogRead in
  let avgTOC := if (snd acc >? 0)%Z then fst acc / IZR (snd acc) else -1.0 in
  (avgTOC - TOC_ZERO_OFFSET) * TOC_SPAN_FACTOR.

Definition readBOD (calibration : CalibrationData) (analogRead : nat -> Z) : R :=
  let acc := sample_loop BOD_SAMPLES BOD_REFERENCE_VOLTAGE BOD_RESOLUTION
               (bod_slope calibration) (bod_intercept calibration) 500.0 analogRead in
  let avgBOD := if (snd acc >? 0)%Z then fst acc / IZR (snd acc) else -1.0 in
  avgBOD * BOD_CALIBRATION_FACTOR.

Definition initializeDefaultCalibration (now : Z) : CalibrationData :=
  mkCalibrationData 0.05 0.1 0.04 0.08 0.02 now.

(** [checkAlerts]: the alerts it sends, as type and value, in order. *)
Definition checkAlerts (g : Globals) (toc bod : R) : list (string * R) :=
  let tocAlerts :=
    if toc >? tocCriticalAlarm then [("CRITICAL_TOC"%string, toc)]
    else if toc >? tocHighAlarm then [("HIGH_TOC"%string, toc)]
    else [] in
  let bodAlerts :=
    if bod >? bodCriticalAlarm then [("CRITICAL_BOD"%string, bod)]
    else if bod >? bodHighAlarm then [("HIGH_BOD"%string, bod)]
    else [] in
  let rapidTOC :=
    if Rabs (toc - lastTOC g) >? 20.0 then [("RAPID_TOC_CHANGE"%string, toc)] else [] in
  let rapidBOD :=
    if Rabs (bod - lastBOD g) >? 10.0 then [("RAPID_BOD_CHANGE"%string, bod)] else [] in
  let load :=
    if (toc >? 30.0) && (bod >? 20.0) then [("HIGH_ORGANIC_LOAD"%string, toc + bod)]
    else [] in
  tocAlerts ++ bodAlerts ++ rapidTOC ++ rapidBOD ++ load.

(** The alerts [takeMeasurement] sends: [checkAlerts] runs after the globals
    took the new values. *)
Definition takeMeasurementAlerts (inp : Inputs) (g : Globals) : list (string * R) :=
  let temperature := tempC inp in
  let toc := applyTemperatureCompensation (toc inp) temperature true in
  let bod := applyTemperatureCompensation (bod inp) temperature false in
  if isValidReading toc bod temperature
  then checkAlerts (takeMeasurement inp g) toc bod
  else [].

(** Each output is on only in the state that drives it. *)
Definition actuators_match (g : Globals) : Prop :=
  (sampleValvePin g = true -> currentState g = SAMPLING)
  /\ (heaterPin g = true -> currentState g = HEATING)
  /\ (reagentPumpPin g = true -> currentState g = CLEANING).

(** A converter that returns the same count at every sample. *)
Definition steady (r : Z) : nat -> Z := fun _ => r.

End TocBodMore.

(** * Properties *)

(** ** Comparisons, logarithms and powers *)

Section FloatFacts.
Local Open Scope R_scope.

Lemma Rgeb_true x y : Rgeb x y = true <-> x >= y.
Proof. unfold Rgeb; destruct (Rge_dec x y); split; intros; try discriminate; tauto. Qed.

Lemma Rleb_true x y : Rleb x y = true <-> x <= y.
Proof. unfold Rleb; destruct (Rle_dec x y); split; intros; try discriminate; tauto. Qed.

Lemma Rgtb_true x y : Rgtb x y = true <-> x > y.
Proof. unfold Rgtb; destruct (Rgt_dec x y); split; intros; try discriminate; tauto. Qed.

Lemma Rltb_true x y : Rltb x y = true <-> x < y.
Proof. unfold Rltb; destruct (Rlt_dec x y); split; intros; try discriminate; tauto. Qed.

Lemma Rgeb_false x y : Rgeb x y = false <-> x < y.
Proof.
  unfold Rgeb; destruct (Rge_dec x y); split; intros; try discriminate; try lra; reflexivity.
Qed.

Lemma Rleb_false x y : Rleb x y = false <-> y < x.
Proof.
  unfold Rleb; destruct (Rle_dec x y); split; intros; try discriminate; try lra; reflexivity.
Qed.


Lemma Rneqb_false x y : Rneqb x y = false <-> x = y.
Proof.
  unfold Rneqb; destruct (Req_dec_T x y); split; intros; try discriminate; tauto.
Qed.

Lemma ln_10_pos : 0 < ln 10.
Proof. rewrite <- ln_1. apply ln_increasing; lra. Qed.

Lemma log10_1 : log10 1 = 0.
Proof. unfold log10. rewrite ln_1. unfold Rdiv. ring. Qed.

Lemma log10_10 : log10 10 = 1.
Proof. unfold log10. field. pose proof ln_10_pos. lra. Qed.

Lemma log10_100 : log10 100 = 2.
Proof.
  unfold log10. replace 100 with (10 * 10) by lra.
  rewrite ln_mult by lra. field. pose proof ln_10_pos. lra.
Qed.



Lemma pow10_pos x : 0 < pow10 x.
Proof. unfold pow10, Rpower. apply exp_pos. Qed.

Lemma pow10_0 : pow10 0 = 1.
Proof. unfold pow10. apply Rpower_O. lra. Qed.

Lemma pow10_log10 x : 0 < x -> pow10 (log10 x) = x.
Proof.
  intros Hx. unfold pow10, log10, Rpower.
  replace (ln x / ln 10 * ln 10) with (ln x).
  - apply exp_ln; assumption.
  - field. pose proof ln_10_pos. lra.
Qed.

(** [10^(-1/4)] is the positive fourth root of [1/10]. *)
Lemma pow10_quarter : pow10 (-0.25) ^ 4 = / 10.
Proof.
  unfold pow10.
  rewrite <- Rpower_pow by apply exp_pos.
  rewrite Rpower_mult.
  replace (-0.25 * INR 4) with (Ropp 1) by (simpl; lra).
  rewrite Rpower_Ropp, Rpower_1 by lra. reflexivity.
Qed.

Lemma pow10_quarter_bounds : 0.5601 < pow10 (-0.25) < 0.5649.
Proof.
  pose proof pow10_quarter as H4.
  pose proof (pow10_pos (-0.25)) as Hp.
  set (p := pow10 (-0.25)) in *.
  assert (Hmono : forall a b, 0 <= a -> a <= b -> a ^ 4 <= b ^ 4).
  { intros a b Ha Hab. apply pow_incr. lra. }
  split.
  - destruct (Rlt_le_dec 0.5601 p) as [ | Hle]; [assumption | exfalso].
    pose proof (Hmono p 0.5601 ltac:(lra) Hle). lra.
  - destruct (Rlt_le_dec p 0.5649) as [ | Hle]; [assumption | exfalso].
    pose proof (Hmono 0.5649 p ltac:(lra) Hle). lra.
Qed.

End FloatFacts.

(** ** The regression of [calculateCalibrationCurve] in closed form *)

Section Regression.
Local Open Scope R_scope.
Import Ammonia.

Variables c0 c1 c2 v0 v1 v2 : R.
Variable cal : CalibrationData.

Let x0 := log10 c0.
Let x1 := log10 c1.
Let x2 := log10 c2.
Let fit := calculateCalibrationCurve [c0; c1; c2] [v0; v1; v2] cal.

Lemma fit_slope :
  slope fit =
  (3 * (x0 * v0 + x1 * v1 + x2 * v2) - (x0 + x1 + x2) * (v0 + v1 + v2))
  / (3 * (x0 * x0 + x1 * x1 + x2 * x2) - (x0 + x1 + x2) * (x0 + x1 + x2)).
Proof.
  unfold fit, calculateCalibrationCurve, for_loop, at_index; cbn.
  fold x0 x1 x2. f_equal; ring.
Qed.

Lemma fit_intercept :
  intercept fit = ((v0 + v1 + v2) - slope fit * (x0 + x1 + x2)) / 3.
Proof.
  unfold fit, calculateCalibrationCurve, for_loop, at_index; cbn.
  fold x0 x1 x2.
  match goal with |- context [?a / ?b * _] => generalize (a / b) end.
  intros q. field.
Qed.

Lemma fit_correlation :
  let num := 3 * (x0 * v0 + x1 * v1 + x2 * v2) - (x0 + x1 + x2) * (v0 + v1 + v2) in
  let den := sqrt ((3 * (x0 * x0 + x1 * x1 + x2 * x2) - (x0 + x1 + x2) * (x0 + x1 + x2))
                   * (3 * (v0 * v0 + v1 * v1 + v2 * v2) - (v0 + v1 + v2) * (v0 + v1 + v2))) in
  correlationCoeff fit = if Rneqb den 0 then num / den else 0.
Proof.
  unfold fit, calculateCalibrationCurve, for_loop, at_index; cbn.
  fold x0 x1 x2.
  match goal with
  | |- (if Rneqb ?d 0 then ?n / ?d' else _) = _ =>
      replace d with
        (sqrt ((3 * (x0 * x0 + x1 * x1 + x2 * x2) - (x0 + x1 + x2) * (x0 + x1 + x2))
               * (3 * (v0 * v0 + v1 * v1 + v2 * v2) - (v0 + v1 + v2) * (v0 + v1 + v2))))
        by (f_equal; ring);
      replace n with
        (3 * (x0 * v0 + x1 * v1 + x2 * v2) - (x0 + x1 + x2) * (v0 + v1 + v2))
        by ring
  end.
  destruct (Rneqb _ 0); [reflexivity | lra].
Qed.

Lemma fit_other_fields :
  isValid fit = isValid cal /\ standards fit = standards cal /\
  voltages fit = voltages cal /\ calibrationDate fit = calibrationDate cal.
Proof. repeat split. Qed.

End Regression.

(** ** Exactly log-linear calibration data *)

Section ExactFit.
Local Open Scope R_scope.
Import Ammonia.


Variables a b c0 c1 c2 : R.
Variable cal : CalibrationData.
Hypothesis c0_pos : 0 < c0.
Hypothesis c1_pos : 0 < c1.
Hypothesis c01 : c0 <> c1.

Let x0 := log10 c0.
Let x1 := log10 c1.
Let x2 := log10 c2.
Let fit :=
  calculateCalibrationCurve [c0; c1; c2]
    [a * log10 c0 + b; a * log10 c1 + b; a * log10 c2 + b] cal.






End ExactFit.

(** ** The fixed standards of the ammonia module *)

Section AmmoniaCalibration.
Local Open Scope R_scope.
Import Ammonia.

Lemma log10_standard_1 : log10 1.0 = 0.
Proof. replace 1.0 with 1 by lra. apply log10_1. Qed.

Lemma log10_standard_2 : log10 10.0 = 1.
Proof. replace 10.0 with 10 by lra. apply log10_10. Qed.

Lemma log10_standard_3 : log10 100.0 = 2.
Proof. replace 100.0 with 100 by lra. apply log10_100. Qed.

(** With the standards 1, 10 and 100 mg/L the fitted slope is half the
    difference between the last and the first voltage. *)
Lemma standard_fit_slope (v0 v1 v2 : R) cal :
  slope (calculateCalibrationCurve calibrationStandards [v0; v1; v2] cal) = (v2 - v0) / 2.
Proof.
  unfold calibrationStandards, CALIB_STANDARD_1, CALIB_STANDARD_2, CALIB_STANDARD_3.
  rewrite fit_slope, log10_standard_1, log10_standard_2, log10_standard_3. field.
Qed.

Lemma standard_fit_intercept (v0 v1 v2 : R) cal :
  intercept (calculateCalibrationCurve calibrationStandards [v0; v1; v2] cal)
  = (5 * v0 + 2 * v1 - v2) / 6.
Proof.
  pose proof (standard_fit_slope v0 v1 v2 cal) as Hs.
  unfold calibrationStandards, CALIB_STANDARD_1, CALIB_STANDARD_2, CALIB_STANDARD_3 in *.
  rewrite fit_intercept, Hs, log10_standard_1, log10_standard_2, log10_standard_3. field.
Qed.

Lemma standard_fit_correlation (v0 v1 v2 : R) cal :
  let den := sqrt (6 * (3 * (v0 * v0 + v1 * v1 + v2 * v2) - (v0 + v1 + v2) * (v0 + v1 + v2))) in
  correlationCoeff (calculateCalibrationCurve calibrationStandards [v0; v1; v2] cal)
  = if Rneqb den 0 then 3 * (v2 - v0) / den else 0.
Proof.
  unfold calibrationStandards, CALIB_STANDARD_1, CALIB_STANDARD_2, CALIB_STANDARD_3.
  rewrite fit_correlation, log10_standard_1, log10_standard_2, log10_standard_3.
  cbv zeta.
  replace (3 * (0 * 0 + 1 * 1 + 2 * 2) - (0 + 1 + 2) * (0 + 1 + 2)) with 6 by ring.
  replace (3 * (0 * v0 + 1 * v1 + 2 * v2) - (0 + 1 + 2) * (v0 + v1 + v2))
    with (3 * (v2 - v0)) by ring.
  reflexivity.
Qed.

(** The validation block in terms of the fitted slope. *)
Lemma fitAndValidate_accepts (volts : list R) now g :
  let fit := calculateCalibrationCurve calibrationStandards volts (calibration g) in
  MIN_ACCEPTABLE_SLOPE <= Rabs (slope fit) <= MAX_ACCEPTABLE_SLOPE ->
  calibration (fitAndValidate volts now g) =
    mkCalibrationData true (slope fit) (intercept fit)
      (map (at_index calibrationStandards) (seq 0 CALIBRATION_POINTS))
      (map (at_index volts) (seq 0 CALIBRATION_POINTS)) now (correlationCoeff fit).
Proof.
  intros fit [Hlo Hhi]. unfold fitAndValidate. cbn [calibration set_calibration].
  fold fit.
  assert (H1 : Rgeb (Rabs (slope fit)) MIN_ACCEPTABLE_SLOPE = true)
    by (apply Rgeb_true; lra).
  assert (H2 : Rleb (Rabs (slope fit)) MAX_ACCEPTABLE_SLOPE = true)
    by (apply Rleb_true; lra).
  rewrite H1, H2. reflexivity.
Qed.

Lemma fitAndValidate_rejects (volts : list R) now g :
  let fit := calculateCalibrationCurve calibrationStandards volts (calibration g) in
  ~ (MIN_ACCEPTABLE_SLOPE <= Rabs (slope fit) <= MAX_ACCEPTABLE_SLOPE) ->
  fitAndValidate volts now g =
    set_calibration
      (mkCalibrationData false (slope fit) (intercept fit)
         (standards (calibration g)) (voltages (calibration g))
         (calibrationDate (calibration g)) (correlationCoeff fit)) g.
Proof.
  intros fit Hno. unfold fitAndValidate. cbn [calibration set_calibration].
  fold fit.
  destruct (Rgeb (Rabs (slope fit)) MIN_ACCEPTABLE_SLOPE) eqn:H1;
    destruct (Rleb (Rabs (slope fit)) MAX_ACCEPTABLE_SLOPE) eqn:H2; cbn [andb];
    try reflexivity.
  exfalso. apply Hno. apply Rgeb_true in H1. apply Rleb_true in H2. lra.
Qed.

End AmmoniaCalibration.

(** ** The electrode voltage and whole calibration runs *)

Section ElectrodeVoltage.
Local Open Scope R_scope.
Import Ammonia.

Lemma ise_loop_bounds (rd : nat -> Z) (l : list nat) (acc : R * Z) :
  0 <= fst acc <= 3.3 * IZR (snd acc) -> (0 <= snd acc)%Z ->
  let acc' :=
    fold_left
      (fun (acc : R * Z) i =>
         let rawReading := rd i in
         let voltage := (IZR rawReading * 3.3) / 4095.0 in
         if (Rgeb voltage 0.0) && (Rleb voltage 3.3)
         then (fst acc + voltage, (snd acc + 1)%Z)
         else acc) l acc in
  0 <= fst acc' <= 3.3 * IZR (snd acc') /\ (0 <= snd acc')%Z.
Proof.
  revert acc. induction l as [ | i l IH]; intros acc Hs Hk; cbn.
  - split; assumption.
  - apply IH.
    + destruct (Rgeb _ 0.0) eqn:H1; destruct (Rleb _ 3.3) eqn:H2; cbn; try assumption.
      apply Rgeb_true in H1. apply Rleb_true in H2.
      rewrite plus_IZR. lra.
    + destruct (Rgeb _ 0.0 && Rleb _ 3.3); cbn; lia.
Qed.

(** Whatever the converter returns, the averaged electrode voltage lies
    between 0 and 3.3 V. *)
Lemma readISEVoltage_range (rd : nat -> Z) : 0 <= readISEVoltage rd <= 3.3.
Proof.
  unfold readISEVoltage, for_loop.
  pose proof (ise_loop_bounds rd (seq 0 10) (0, 0%Z)) as H.
  cbn [fst snd] in H. specialize (H ltac:(lra) ltac:(lia)).
  cbv zeta in H.
  destruct (fold_left _ (seq 0 10) (0, 0%Z)) as [s k]. cbn [fst snd] in H.
  destruct H as [[Hlo Hhi] Hk].
  destruct (k >? 0)%Z eqn:Hpos; [ | lra].
  apply Z.gtb_lt in Hpos. apply IZR_lt in Hpos.
  split.
  - apply Rmult_le_pos; [assumption | ]. left. apply Rinv_0_lt_compat. assumption.
  - apply Rmult_le_reg_r with (IZR k); [assumption | ].
    unfold Rdiv. rewrite Rmult_assoc, Rinv_l by lra. lra.
Qed.

Lemma performCalibration_volts (reads : nat -> nat -> Z) now g :
  performCalibration reads now g =
  fitAndValidate [readISEVoltage (reads 0%nat); readISEVoltage (reads 1%nat);
                  readISEVoltage (reads 2%nat)] now g.
Proof. reflexivity. Qed.

(** The recorded voltages are in volts, at most 3.3 apart, while the accepted
    slope magnitudes start at 50: the validation rejects every whole run. *)
Lemma performCalibration_slope_small (reads : nat -> nat -> Z) g :
  let volts := [readISEVoltage (reads 0%nat); readISEVoltage (reads 1%nat);
                readISEVoltage (reads 2%nat)] in
  Rabs (slope (calculateCalibrationCurve calibrationStandards volts (calibration g)))
  <= 1.65.
Proof.
  cbv zeta. rewrite standard_fit_slope.
  pose proof (readISEVoltage_range (reads 0%nat)).
  pose proof (readISEVoltage_range (reads 2%nat)).
  apply Rabs_le. lra.
Qed.

Lemma performCalibration_always_rejected (reads : nat -> nat -> Z) now g :
  isValid (calibration (performCalibration reads now g)) = false
  /\ eeprom (performCalibration reads now g) = eeprom g.
Proof.
  rewrite performCalibration_volts.
  pose proof (performCalibration_slope_small reads g) as Hsmall. cbv zeta in Hsmall.
  rewrite fitAndValidate_rejects.
  - split; reflexivity.
  - unfold MIN_ACCEPTABLE_SLOPE. lra.
Qed.

End ElectrodeVoltage.

(** ** Concentration and equilibrium of the ammonia module *)

Section AmmoniaConcentration.
Local Open Scope R_scope.
Import Ammonia Scenario.

Lemma readISEVoltage_steady (r : Z) :
  (0 <= r <= 4095)%Z -> readISEVoltage (steadyADC r) = IZR r * 3.3 / 4095.
Proof.
  intros [Hlo Hhi]. apply IZR_le in Hlo, Hhi.
  unfold readISEVoltage, for_loop, steadyADC. cbn [seq fold_left].
  assert (H1 : Rgeb (IZR r * 3.3 / 4095.0) 0.0 = true) by (apply Rgeb_true; lra).
  assert (H2 : Rleb (IZR r * 3.3 / 4095.0) 3.3 = true) by (apply Rleb_true; lra).
  rewrite H1, H2. cbn.
  match goal with |- context [(?k >? 0)%Z] => change k with 10%Z end.
  change (10 >? 0)%Z with true. cbv iota. lra.
Qed.

Lemma readISEVoltage_idle : readISEVoltage (steadyADC 0) = 0.
Proof. rewrite readISEVoltage_steady by lia. lra. Qed.

(** C4: with a valid stored calibration of slope [s] and intercept [b], the
    concentration computed from the raw signal [v] at [T] degrees Celsius is
    [10^((v - b) / s_T)] with [s_T = s * ((T + 273.15) / (25 + 273.15))]. *)
Theorem C4_loglinear_concentration (c : CalibrationData) (v T : R) :
  isValid c = true ->
  calculateAmmoniaConcentration c v T = spec_logLinear v T (slope c) (intercept c).
Proof.
  intros Hvalid.
  unfold calculateAmmoniaConcentration, spec_logLinear, pow10, REFERENCE_TEMP.
  rewrite Hvalid. cbn [negb].
  replace (25.0 + 273.15) with (25 + 273.15) by lra.
  f_equal. f_equal. unfold Rdiv. ring.
Qed.

Lemma C4_loglinear_concentration_witness :
  isValid scenarioCurve = true /\
  calculateAmmoniaConcentration scenarioCurve 141 25
  = spec_logLinear 141 25 (-59) 200.
Proof.
  split; [reflexivity | ].
  apply (C4_loglinear_concentration scenarioCurve 141 25). reflexivity.
Defined.

Lemma fraction_scenario_B :
  0.639 < calculateFreeAmmoniaFraction 9.5 25 < 0.641.
Proof.
  unfold calculateFreeAmmoniaFraction, PKA_25C, TEMP_COEFF, REFERENCE_TEMP.
  replace (9.25 + 0.0324 * (25 - 25.0) - 9.5) with (-0.25) by lra.
  pose proof pow10_quarter_bounds as [Hlo Hhi].
  set (p := pow10 (-0.25)) in *.
  split.
  - apply Rmult_lt_reg_r with (1.0 + p); [lra | ].
    unfold Rdiv. rewrite Rmult_assoc, Rinv_l by lra. lra.
  - apply Rmult_lt_reg_r with (1.0 + p); [lra | ].
    unfold Rdiv. rewrite Rmult_assoc, Rinv_l by lra. lra.
Qed.

Lemma assessToxicity_critical (x : R) :
  TOXIC_CRITICAL_THRESHOLD <= x < TOXIC_ACUTE_THRESHOLD ->
  assessToxicity x = "CRITICAL"%string.
Proof.
  intros [Hlo Hhi]. unfold assessToxicity.
  assert (H1 : Rgeb x TOXIC_ACUTE_THRESHOLD = false) by (apply Rgeb_false; lra).
  assert (H2 : Rgeb x TOXIC_CRITICAL_THRESHOLD = true) by (apply Rgeb_true; lra).
  rewrite H1, H2. reflexivity.
Qed.

Lemma readTemperature_accepts (inp : Inputs) :
  -50 < tempSensorC inp < 125 -> readTemperature inp = tempSensorC inp.
Proof.
  intros [Hlo Hhi]. unfold readTemperature.
  assert (H1 : Rgtb (tempSensorC inp) (-50.0) = true) by (apply Rgtb_true; lra).
  assert (H2 : Rltb (tempSensorC inp) 125.0 = true) by (apply Rltb_true; lra).
  rewrite H1, H2. reflexivity.
Qed.

Lemma readPH_accepts (inp : Inputs) :
  0 <= phResponse inp <= 14 -> readPH inp = phResponse inp.
Proof.
  intros [Hlo Hhi]. unfold readPH.
  assert (H1 : Rgeb (phResponse inp) 0.0 = true) by (apply Rgeb_true; lra).
  assert (H2 : Rleb (phResponse inp) 14.0 = true) by (apply Rleb_true; lra).
  rewrite H1, H2. reflexivity.
Qed.

Lemma readTemperature_rejects (inp : Inputs) :
  tempSensorC inp <= -50 -> readTemperature inp = REFERENCE_TEMP.
Proof.
  intros Hlo. unfold readTemperature.
  destruct (Rgtb (tempSensorC inp) (-50.0)) eqn:H1; [ | reflexivity].
  apply Rgtb_true in H1. lra.
Qed.

(** With the zero-intercept curve and an idle converter the instantaneous
    total is exactly 1 mg/L, whatever the temperature. *)
Lemma idle_total (temp ph : R) :
  instantaneousTotal (idleInputs temp ph) (calibratedWith zeroInterceptCurve) = 1.
Proof.
  unfold instantaneousTotal.
  cbn [idleInputs analogRead].
  rewrite readISEVoltage_idle.
  unfold calculateAmmoniaConcentration. cbn.
  match goal with |- pow10 ?e = _ => replace e with 0 end.
  - apply pow10_0.
  - unfold Rdiv. ring.
Qed.

End AmmoniaConcentration.

(** ** One sampling cycle of the ammonia module *)

Section AmmoniaCycle.
Local Open Scope R_scope.
Import Ammonia Scenario.

Lemma buffer_average_sum (buffer : list R) :
  length buffer = MAX_READINGS_BUFFER ->
  for_loop MAX_READINGS_BUFFER (fun acc i => acc + at_index buffer i) 0
  = buffer_sum buffer.
Proof.
  intros Hlen. unfold MAX_READINGS_BUFFER in *.
  do 10 (destruct buffer as [ | ? buffer]; [discriminate Hlen | ]).
  destruct buffer; [ | discriminate Hlen].
  unfold for_loop, at_index, buffer_sum. cbn. ring.
Qed.

Lemma range_check_true (x : R) :
  AMMONIA_MIN_RANGE <= x <= AMMONIA_MAX_RANGE ->
  Rgeb x AMMONIA_MIN_RANGE && Rleb x AMMONIA_MAX_RANGE = true.
Proof.
  intros [Hlo Hhi]. apply andb_true_iff. split.
  - apply Rgeb_true; lra.
  - apply Rleb_true; assumption.
Qed.

Lemma range_check_iff (x : R) :
  Rgeb x AMMONIA_MIN_RANGE && Rleb x AMMONIA_MAX_RANGE = true
  <-> AMMONIA_MIN_RANGE <= x <= AMMONIA_MAX_RANGE.
Proof.
  rewrite andb_true_iff, Rgeb_true, Rleb_true. split; intros [H1 H2]; split; lra.
Qed.

(** The cycle when the instantaneous total passes the range check. *)
Lemma takeAmmoniaMeasurement_accepted (inp : Inputs) (g : Globals) :
  AMMONIA_MIN_RANGE <= instantaneousTotal inp g <= AMMONIA_MAX_RANGE ->
  let total := instantaneousTotal inp g in
  let f := calculateFreeAmmoniaFraction (readPH inp) (readTemperature inp) in
  let buffer := <[bufferIndex g := total]> (ammoniaBuffer g) in
  let g' := takeAmmoniaMeasurement inp g in
  currentReading g' =
    mkAmmoniaData
      (for_loop MAX_READINGS_BUFFER (fun acc i => acc + at_index buffer i) 0
       / INR MAX_READINGS_BUFFER)
      (total * f) (total * (1.0 - f)) (readPH inp) (readTemperature inp)
      (readISEVoltage (analogRead inp)) (slope (calibration g)) (millis inp)
      (assessToxicity (total * f)) true
  /\ ammoniaBuffer g' = buffer
  /\ bufferIndex g' = ((bufferIndex g + 1) mod MAX_READINGS_BUFFER)%nat
  /\ calibration g' = calibration g
  /\ (mqttConnected inp = true ->
      last (mqttLog g') = Some (SensorDataMsg (currentReading g') (bootCount (rtcData g)))).
Proof.
  intros Hrange. cbv zeta. unfold takeAmmoniaMeasurement.
  unfold instantaneousTotal in *.
  rewrite (range_check_true _ Hrange).
  repeat split.
  intros Hconn. unfold publishSensorData, publishToxicAlert. rewrite Hconn.
  cbn [negb mqttLog currentReading rtcData bootCount].
  destruct (Rgeb _ TOXIC_WARNING_THRESHOLD);
    cbn [mqttLog currentReading rtcData bootCount]; apply last_snoc.
Qed.

(** The averaging buffer keeps its ten slots and the index stays inside
    them. *)
Lemma takeAmmoniaMeasurement_buffer (inp : Inputs) (g : Globals) :
  length (ammoniaBuffer (takeAmmoniaMeasurement inp g)) = length (ammoniaBuffer g)
  /\ ((bufferIndex g < MAX_READINGS_BUFFER)%nat ->
      (bufferIndex (takeAmmoniaMeasurement inp g) < MAX_READINGS_BUFFER)%nat).
Proof.
  unfold takeAmmoniaMeasurement.
  destruct (Rgeb _ AMMONIA_MIN_RANGE && Rleb _ AMMONIA_MAX_RANGE);
    cbn [ammoniaBuffer bufferIndex].
  - split; [apply length_insert | ].
    intros _. apply Nat.mod_upper_bound. discriminate.
  - split; [reflexivity | tauto].
Qed.

(** The cycle when the instantaneous total fails the range check. *)
Lemma takeAmmoniaMeasurement_rejected (inp : Inputs) (g : Globals) :
  ~ (AMMONIA_MIN_RANGE <= instantaneousTotal inp g <= AMMONIA_MAX_RANGE) ->
  takeAmmoniaMeasurement inp g =
    mkGlobals (set_dataValid false (currentReading g)) (calibration g)
              (ammoniaBuffer g) (bufferIndex g) (rtcData g) (eeprom g) (mqttLog g).
Proof.
  intros Hrange. unfold takeAmmoniaMeasurement. unfold instantaneousTotal in *.
  destruct (Rgeb _ AMMONIA_MIN_RANGE && Rleb _ AMMONIA_MAX_RANGE) eqn:E;
    [ | reflexivity].
  apply range_check_iff in E. contradiction.
Qed.

End AmmoniaCycle.

Section AmmoniaClaims.
Local Open Scope R_scope.
Import Ammonia Scenario.

Lemma scenario_B_cycle_total :
  instantaneousTotal (idleInputs 25 9.5) (calibratedWith zeroInterceptCurve) = 1.
Proof. apply idle_total. Qed.

Lemma scenario_B_cycle_range :
  AMMONIA_MIN_RANGE <=
  instantaneousTotal (idleInputs 25 9.5) (calibratedWith zeroInterceptCurve)
  <= AMMONIA_MAX_RANGE.
Proof.
  rewrite scenario_B_cycle_total. unfold AMMONIA_MIN_RANGE, AMMONIA_MAX_RANGE. lra.
Qed.

(** C5: the free-ammonia fraction is [1 / (1 + 10^(pKa - pH))] with
    [pKa = 9.25 + 0.0324 * (T - 25)].  At pH 9.5 and 25 degrees with 1.0 mg/L
    of total ammonia the free ammonia lies between 0.639 and 0.641 mg/L and
    the toxicity level is CRITICAL, both for the two functions alone and for
    a whole sampling cycle that measures this state. *)
Theorem C5_free_ammonia_fraction :
  (forall p T : R, calculateFreeAmmoniaFraction p T = spec_freeFraction p T)
  /\ (0.639 < 1.0 * calculateFreeAmmoniaFraction 9.5 25 < 0.641
      /\ TOXIC_CRITICAL_THRESHOLD <= 1.0 * calculateFreeAmmoniaFraction 9.5 25
         < TOXIC_ACUTE_THRESHOLD
      /\ assessToxicity (1.0 * calculateFreeAmmoniaFraction 9.5 25) = "CRITICAL"%string)
  /\ (let r := currentReading
                 (takeAmmoniaMeasurement (idleInputs 25 9.5)
                                         (calibratedWith zeroInterceptCurve)) in
      dataValid r = true /\ 0.639 < freeAmmonia r < 0.641
      /\ toxicityLevel r = "CRITICAL"%string).
Proof.
  pose proof fraction_scenario_B as HB.
  assert (Hband : TOXIC_CRITICAL_THRESHOLD <= 1.0 * calculateFreeAmmoniaFraction 9.5 25
                  < TOXIC_ACUTE_THRESHOLD)
    by (unfold TOXIC_CRITICAL_THRESHOLD, TOXIC_ACUTE_THRESHOLD; lra).
  split; [ | split].
  - intros p T.
    unfold calculateFreeAmmoniaFraction, spec_freeFraction, pow10,
      PKA_25C, TEMP_COEFF, REFERENCE_TEMP.
    replace 25.0 with 25 by lra. replace 1.0 with 1 by lra. reflexivity.
  - split; [lra | ]. split; [exact Hband | ].
    apply assessToxicity_critical. exact Hband.
  - cbv zeta.
    destruct (takeAmmoniaMeasurement_accepted _ _ scenario_B_cycle_range)
      as (Hr & _).
    rewrite Hr. cbn [dataValid freeAmmonia toxicityLevel].
    rewrite scenario_B_cycle_total.
    rewrite readPH_accepts by (cbn; lra).
    rewrite readTemperature_accepts by (cbn; lra).
    cbn [idleInputs phResponse tempSensorC].
    split; [reflexivity | ]. split.
    + lra.
    + apply assessToxicity_critical.
      unfold TOXIC_CRITICAL_THRESHOLD, TOXIC_ACUTE_THRESHOLD. lra.
Qed.

(** C10: in a cycle accepted as in range, [freeAmmonia] and [ammonium] are
    fractions of the instantaneous total and add up to it, while the
    [totalAmmonia] field (the one published) is the sum of the ten buffer
    slots, after the instantaneous total was written into the current slot,
    divided by ten; the two agree exactly when that average equals the
    instantaneous total. *)
Theorem C10_split_uses_instantaneous_total (inp : Inputs) (g : Globals) :
  length (ammoniaBuffer g) = MAX_READINGS_BUFFER ->
  AMMONIA_MIN_RANGE <= instantaneousTotal inp g <= AMMONIA_MAX_RANGE ->
  let total := instantaneousTotal inp g in
  let g' := takeAmmoniaMeasurement inp g in
  let r := currentReading g' in
  dataValid r = true
  /\ freeAmmonia r = total * calculateFreeAmmoniaFraction (readPH inp) (readTemperature inp)
  /\ freeAmmonia r + ammonium r = total
  /\ ammoniaBuffer g' = <[bufferIndex g := total]> (ammoniaBuffer g)
  /\ length (ammoniaBuffer g') = MAX_READINGS_BUFFER
  /\ totalAmmonia r = buffer_sum (ammoniaBuffer g') / 10
  /\ (freeAmmonia r + ammonium r = totalAmmonia r <-> totalAmmonia r = total)
  /\ (mqttConnected inp = true ->
      last (mqttLog g') = Some (SensorDataMsg r (bootCount (rtcData g)))).
Proof.
  intros Hlen Hrange. cbv zeta.
  destruct (takeAmmoniaMeasurement_accepted inp g Hrange)
    as (Hr & Hbuf & _ & _ & Hlog).
  cbv zeta in Hr, Hbuf, Hlog.
  assert (Hlen' : length (ammoniaBuffer (takeAmmoniaMeasurement inp g))
                  = MAX_READINGS_BUFFER)
    by (rewrite Hbuf, length_insert; exact Hlen).
  assert (Hsum : freeAmmonia (currentReading (takeAmmoniaMeasurement inp g))
                 + ammonium (currentReading (takeAmmoniaMeasurement inp g))
                 = instantaneousTotal inp g)
    by (rewrite Hr; cbn [freeAmmonia ammonium]; replace 1.0 with 1 by lra; ring).
  split; [rewrite Hr; reflexivity | ].
  split; [rewrite Hr; reflexivity | ].
  split; [exact Hsum | ].
  split; [exact Hbuf | ].
  split; [exact Hlen' | ].
  split.
  - rewrite <- buffer_average_sum by exact Hlen'.
    rewrite Hbuf. rewrite Hr at 1. cbn [totalAmmonia].
    unfold MAX_READINGS_BUFFER. cbn [INR]. f_equal. lra.
  - split; [ | exact Hlog].
    rewrite Hsum. split; intros H; symmetry; exact H.
Qed.

Lemma C10_split_uses_instantaneous_total_witness :
  let inp := idleInputs 25 9.5 in
  let g := calibratedWith zeroInterceptCurve in
  let r := currentReading (takeAmmoniaMeasurement inp g) in
  freeAmmonia r + ammonium r = 1 /\ totalAmmonia r = 0.1.
Proof.
  cbv zeta.
  destruct (C10_split_uses_instantaneous_total
              (idleInputs 25 9.5) (calibratedWith zeroInterceptCurve)
              eq_refl scenario_B_cycle_range)
    as (_ & _ & Hsum & Hbuf & _ & Havg & _).
  cbv zeta in Hsum, Hbuf, Havg.
  rewrite scenario_B_cycle_total in Hsum, Hbuf.
  split; [exact Hsum | ].
  rewrite Havg, Hbuf. unfold buffer_sum. cbn. lra.
Defined.

End AmmoniaClaims.

(** ** Calibration runs, validation and the durable store *)

Section CalibrationClaims.
Local Open Scope R_scope.
Import Ammonia Scenario.

Lemma idle_run_volts :
  [readISEVoltage (steadyADC 0); readISEVoltage (steadyADC 0);
   readISEVoltage (steadyADC 0)] = [0; 0; 0].
Proof. rewrite readISEVoltage_idle. reflexivity. Qed.

Lemma idle_fit (cal : CalibrationData) :
  let fit := calculateCalibrationCurve calibrationStandards [0; 0; 0] cal in
  slope fit = 0 /\ intercept fit = 0 /\ correlationCoeff fit = 0.
Proof.
  cbv zeta. rewrite standard_fit_slope, standard_fit_intercept, standard_fit_correlation.
  cbv zeta.
  replace (6 * (3 * (0 * 0 + 0 * 0 + 0 * 0) - (0 + 0 + 0) * (0 + 0 + 0))) with 0 by ring.
  rewrite sqrt_0.
  assert (H : Rneqb 0 0 = false) by (apply Rneqb_false; reflexivity).
  rewrite H. repeat split; lra.
Qed.

Lemma out_of_range_0 :
  ~ (MIN_ACCEPTABLE_SLOPE <= Rabs 0 <= MAX_ACCEPTABLE_SLOPE).
Proof. rewrite Rabs_R0. unfold MIN_ACCEPTABLE_SLOPE. lra. Qed.

(** C1, as the code has it: a run whose fitted slope magnitude is outside
    50..65 terminates with the EEPROM untouched, so that a restart loads the
    same curve as before the run; in memory the slope, the intercept and the
    correlation coefficient are those of the rejected fit and [isValid] is
    cleared, the other globals being unchanged. *)
Theorem C1_failed_run_keeps_store_only (volts : list R) (now : Z) (g : Globals) :
  let fit := calculateCalibrationCurve calibrationStandards volts (calibration g) in
  ~ (MIN_ACCEPTABLE_SLOPE <= Rabs (slope fit) <= MAX_ACCEPTABLE_SLOPE) ->
  let g' := fitAndValidate volts now g in
  eeprom g' = eeprom g
  /\ calibration (restart g') = calibration (restart g)
  /\ isValid (calibration g') = false
  /\ slope (calibration g') = slope fit
  /\ intercept (calibration g') = intercept fit
  /\ correlationCoeff (calibration g') = correlationCoeff fit
  /\ standards (calibration g') = standards (calibration g)
  /\ voltages (calibration g') = voltages (calibration g)
  /\ calibrationDate (calibration g') = calibrationDate (calibration g)
  /\ currentReading g' = currentReading g
  /\ ammoniaBuffer g' = ammoniaBuffer g
  /\ mqttLog g' = mqttLog g.
Proof.
  intros fit Hno g'. subst g'.
  rewrite (fitAndValidate_rejects volts now g Hno). fold fit.
  repeat split.
Qed.

Lemma C1_failed_run_keeps_store_only_witness :
  let g := calibratedWith scenarioCurve in
  let g' := performCalibration (fun _ => steadyADC 0) 2000 g in
  eeprom g' = eeprom g /\ isValid (calibration g') = false
  /\ slope (calibration g') = 0.
Proof.
  cbv zeta. rewrite performCalibration_volts, idle_run_volts.
  pose proof (idle_fit (calibration (calibratedWith scenarioCurve))) as (Hs & _).
  cbv zeta in Hs.
  assert (Hno : ~ (MIN_ACCEPTABLE_SLOPE
                   <= Rabs (slope (calculateCalibrationCurve calibrationStandards [0; 0; 0]
                                     (calibration (calibratedWith scenarioCurve))))
                   <= MAX_ACCEPTABLE_SLOPE))
    by (rewrite Hs; exact out_of_range_0).
  destruct (C1_failed_run_keeps_store_only [0; 0; 0] 2000
              (calibratedWith scenarioCurve) Hno)
    as (He & _ & Hv & Hsl & _).
  split; [exact He | ]. split; [exact Hv | ].
  rewrite Hsl. exact Hs.
Defined.

(** C1 as stated fails: the module holds the valid curve of slope -59,
    intercept 200 and correlation -1; a run over an idle converter is
    rejected and leaves slope, intercept and correlation at 0. *)
Lemma C1_counterexample :
  let g := calibratedWith scenarioCurve in
  let g' := performCalibration (fun _ => steadyADC 0) 2000 g in
  isValid (calibration g) = true
  /\ isValid (calibration g') = false
  /\ slope (calibration g) = -59 /\ slope (calibration g') = 0
  /\ intercept (calibration g) = 200 /\ intercept (calibration g') = 0
  /\ correlationCoeff (calibration g) = -1 /\ correlationCoeff (calibration g') = 0
  /\ calibration g' <> calibration g.
Proof.
  cbv zeta. rewrite performCalibration_volts, idle_run_volts.
  pose proof (idle_fit (calibration (calibratedWith scenarioCurve))) as (Hs & Hi & Hc).
  cbv zeta in Hs, Hi, Hc.
  assert (Hno : ~ (MIN_ACCEPTABLE_SLOPE
                   <= Rabs (slope (calculateCalibrationCurve calibrationStandards [0; 0; 0]
                                     (calibration (calibratedWith scenarioCurve))))
                   <= MAX_ACCEPTABLE_SLOPE))
    by (rewrite Hs; exact out_of_range_0).
  rewrite (fitAndValidate_rejects _ 2000 _ Hno).
  cbn [calibration set_calibration isValid slope intercept correlationCoeff].
  rewrite Hs, Hi, Hc.
  repeat split; try reflexivity.
  intros E. apply (f_equal isValid) in E. discriminate E.
Qed.

End CalibrationClaims.

Section ValidationClaims.
Local Open Scope R_scope.
Import Ammonia Scenario.


End ValidationClaims.

Section StoreClaims.
Local Open Scope R_scope.
Import Ammonia Scenario.

(** C3, as the code has it: loading what [saveCalibrationData] stored gives
    back [isValid], [slope], [intercept] and [calibrationDate]; the recorded
    points and the correlation coefficient are not in the store and keep the
    values they have in the globals [h] that are loaded into. *)
Theorem C3_save_load_restores_four_fields (g h : Globals) :
  let c := calibration g in
  let c' := calibration
              (loadCalibrationData (set_eeprom (eeprom (saveCalibrationData g)) h)) in
  isValid c' = isValid c
  /\ slope c' = slope c
  /\ intercept c' = intercept c
  /\ calibrationDate c' = calibrationDate c
  /\ standards c' = standards (calibration h)
  /\ voltages c' = voltages (calibration h)
  /\ correlationCoeff c' = correlationCoeff (calibration h).
Proof. repeat split. Qed.

(** C3 as stated fails: the scenario curve is saved and the module
    restarted; the loaded curve has correlation 0 and empty points. *)
Lemma C3_counterexample :
  let g := set_calibration scenarioCurve (bootGlobals blankEEPROM) in
  let c' := calibration (restart (saveCalibrationData g)) in
  correlationCoeff scenarioCurve = -1 /\ correlationCoeff c' = 0
  /\ standards scenarioCurve = [1.0; 10.0; 100.0] /\ standards c' = [0; 0; 0]
  /\ voltages scenarioCurve = [200; 141; 82] /\ voltages c' = [0; 0; 0]
  /\ c' <> scenarioCurve.
Proof.
  cbv zeta. repeat split.
  intros E. apply (f_equal correlationCoeff) in E. cbn in E. lra.
Qed.






End StoreClaims.

(** ** The nitrite/nitrate cycle: validity and quality score *)

Section NitriteCycle.
Local Open Scope R_scope.
Import NitriteNitrate NitriteScenario.

(** The condition [performMeasurement] assigns to [data.valid]. *)
Lemma performMeasurement_valid_iff (inp : Inputs) (g : Globals) :
  let d := snd (performMeasurement inp g) in
  valid d = true <->
  (0 <= nitrite_concentration d <= 100 /\ 0 <= nitrate_concentration d <= 1000
   /\ -10 < temperature d < 50).
Proof.
  cbv zeta. unfold performMeasurement.
  set (data := if dummy_mode (config g) then _ else _).
  cbn [valid].
  destruct (Rgeb (nitrite_concentration data) 0 && Rleb (nitrite_concentration data) 100
            && Rgeb (nitrate_concentration data) 0 && Rleb (nitrate_concentration data) 1000
            && Rgtb (temperature data) (-10) && Rltb (temperature data) 50) eqn:E;
    cbn [snd valid nitrite_concentration nitrate_concentration temperature].
  - repeat (apply andb_true_iff in E; destruct E as [E ?]).
    repeat match goal with
           | H : Rgeb _ _ = true |- _ => apply Rgeb_true in H
           | H : Rleb _ _ = true |- _ => apply Rleb_true in H
           | H : Rgtb _ _ = true |- _ => apply Rgtb_true in H
           | H : Rltb _ _ = true |- _ => apply Rltb_true in H
           end.
    split; [intros _; lra | reflexivity].
  - split; [discriminate | ].
    intros ([H1 H2] & [H3 H4] & [H5 H6]). exfalso.
    apply Rle_ge, Rgeb_true in H1, H3. apply Rleb_true in H2, H4.
    apply Rgtb_true in H5. apply Rltb_true in H6.
    rewrite H1, H2, H3, H4, H5, H6 in E. discriminate E.
Qed.

Lemma calculateQualityScore_bounds (g : Globals) (now : Z) (d : MeasurementData) :
  (0 <= calculateQualityScore g now d <= 100)%Z.
Proof.
  unfold calculateQualityScore.
  destruct (Rgtb (nitrite_concentration d) 5.0), (Rgtb (nitrate_concentration d) 200.0),
    (Rltb (temperature d) 10 || Rgtb (temperature d) 30),
    (negb (calibrated (calibration g))),
    (((now - last_calibration (calibration g)) mod 2 ^ 32 >? 604800000)%Z); lia.
Qed.

Lemma calculateQualityScore_uncalibrated (g : Globals) (now : Z) (d : MeasurementData) :
  calibrated (calibration g) = false ->
  (calculateQualityScore g now d <= 70)%Z.
Proof.
  intros Hcal. unfold calculateQualityScore. rewrite Hcal. cbn [negb].
  destruct (Rgtb (nitrite_concentration d) 5.0), (Rgtb (nitrate_concentration d) 200.0),
    (Rltb (temperature d) 10 || Rgtb (temperature d) 30),
    (((now - last_calibration (calibration g)) mod 2 ^ 32 >? 604800000)%Z); lia.
Qed.

Lemma handleAlarms_keeps (g : Globals) (d : MeasurementData) (log : list Message)
    (m : Message) :
  In m log -> In m (handleAlarms g d log).
Proof.
  intros Hin. unfold handleAlarms.
  destruct (Rgtb (nitrite_concentration d) _), (Rgtb (nitrate_concentration d) _);
    repeat (apply in_or_app; left); assumption.
Qed.

(** A valid cycle scores the measurement and publishes it with the
    calibration flag of the globals. *)
Lemma performMeasurement_valid_publishes (inp : Inputs) (g : Globals) :
  let g' := fst (performMeasurement inp g) in
  let d := snd (performMeasurement inp g) in
  valid d = true ->
  quality_score d = calculateQualityScore g (millisAtScore inp) d
  /\ In (DataMsg d (calibrated (calibration g)) (sensorHealthy g)
                 (dummy_mode (config g))) (mqttLog g').
Proof.
  cbv zeta. unfold performMeasurement.
  set (data := if dummy_mode (config g) then _ else _).
  cbn [valid].
  destruct (Rgeb (nitrite_concentration data) 0 && Rleb (nitrite_concentration data) 100
            && Rgeb (nitrate_concentration data) 0 && Rleb (nitrate_concentration data) 1000
            && Rgtb (temperature data) (-10) && Rltb (temperature data) 50) eqn:E;
    cbn [fst snd valid quality_score mqttLog]; [ | discriminate].
  intros _. split.
  - unfold calculateQualityScore. reflexivity.
  - apply handleAlarms_keeps. unfold publishData. apply in_or_app. right.
    left. reflexivity.
Qed.

(** The concentrations of a cycle outside dummy mode and without a
    calibration. *)
Lemma performMeasurement_default_model (inp : Inputs) (g : Globals) :
  calibrated (calibration g) = false ->
  dummy_mode (config g) = false ->
  let d := snd (performMeasurement inp g) in
  nitrite_concentration d =
    defaultModel g (nitrite_slope (config g)) (nitrite_intercept (config g))
                 (readAnalogVoltage (analogNitrite inp)) (tempSensorC inp)
                 (1.0 + ph_compensation (config g) * (7.0 - 7.0))
  /\ nitrate_concentration d =
    defaultModel g (nitrate_slope (config g)) (nitrate_intercept (config g))
                 (readAnalogVoltage (analogNitrate inp)) (tempSensorC inp) 1
  /\ temperature d = tempSensorC inp.
Proof.
  intros Hcal Hdummy. cbv zeta. unfold performMeasurement. rewrite Hdummy.
  unfold calculateConcentrations. rewrite Hcal.
  match goal with |- context [if ?c then _ else _] => destruct c end;
    cbn; unfold defaultModel; repeat split; ring.
Qed.

End NitriteCycle.

(** ** Validity of a measurement, and cycles without calibration *)

Section ValidityClaims.
Local Open Scope R_scope.
Import NitriteNitrate NitriteScenario.

Lemma readAnalogVoltage_idle : readAnalogVoltage (fun _ => 0%Z) = 0.
Proof.
  unfold readAnalogVoltage, for_loop. cbn [seq fold_left].
  change (Z.quot (0 + 0 + 0 + 0 + 0 + 0 + 0 + 0 + 0 + 0 + 0) 10) with 0%Z. lra.
Qed.

(** The idle cycle of the uncalibrated default module at probe temperature
    [temp]: both concentrations are the temperature factor. *)
Lemma idle_cycle_concentrations (temp : R) :
  let d := snd (performMeasurement (idleInputs temp) defaultGlobals) in
  nitrite_concentration d = 1 + 0.02 * (temp - 25)
  /\ nitrate_concentration d = 1 + 0.02 * (temp - 25)
  /\ temperature d = temp.
Proof.
  cbv zeta.
  destruct (performMeasurement_default_model (idleInputs temp) defaultGlobals
              eq_refl eq_refl) as (H2 & H3 & Ht).
  cbv zeta in H2, H3, Ht. rewrite H2, H3, Ht.
  unfold defaultModel. cbn [idleInputs analogNitrite analogNitrate tempSensorC
                            defaultGlobals config defaultConfig nitrite_slope
                            nitrite_intercept nitrate_slope nitrate_intercept
                            temp_coefficient ph_compensation conductivity_compensation].
  rewrite readAnalogVoltage_idle.
  replace ((0 - 0.0) / -59.16) with 0 by lra.
  rewrite pow10_0. repeat split; lra.
Qed.

(** C7, as the code has it.  Ammonia: the reading is marked valid exactly
    when the instantaneous total lies in 0.01..100 mg/L, the temperature
    playing no part, and a total below the minimum (such as -5) is marked
    invalid.  Nitrite/nitrate: the measurement is valid exactly when nitrite
    lies in 0..100, nitrate in 0..1000 and the temperature strictly between
    -10 and 50, so a negative concentration (such as -5) is invalid. *)
Theorem C7_valid_only_in_range :
  (forall (inp : Ammonia.Inputs) (g : Ammonia.Globals),
      Ammonia.dataValid (Ammonia.currentReading (Ammonia.takeAmmoniaMeasurement inp g))
      = true
      <-> Ammonia.AMMONIA_MIN_RANGE <= Scenario.instantaneousTotal inp g
          <= Ammonia.AMMONIA_MAX_RANGE)
  /\ (forall (inp : Ammonia.Inputs) (g : Ammonia.Globals),
         Scenario.instantaneousTotal inp g < Ammonia.AMMONIA_MIN_RANGE ->
         Ammonia.dataValid (Ammonia.currentReading (Ammonia.takeAmmoniaMeasurement inp g))
         = false)
  /\ (forall (inp : Inputs) (g : Globals),
         let d := snd (performMeasurement inp g) in
         valid d = true <->
         (0 <= nitrite_concentration d <= 100 /\ 0 <= nitrate_concentration d <= 1000
          /\ -10 < temperature d < 50))
  /\ (forall (inp : Inputs) (g : Globals),
         let d := snd (performMeasurement inp g) in
         nitrite_concentration d < 0 -> valid d = false).
Proof.
  assert (Hamm : forall inp g,
             Ammonia.dataValid
               (Ammonia.currentReading (Ammonia.takeAmmoniaMeasurement inp g)) = true
             <-> Ammonia.AMMONIA_MIN_RANGE <= Scenario.instantaneousTotal inp g
                 <= Ammonia.AMMONIA_MAX_RANGE).
  { intros inp g. split.
    - intros Hv.
      destruct (Rle_dec Ammonia.AMMONIA_MIN_RANGE (Scenario.instantaneousTotal inp g))
        as [Hlo | Hlo];
        destruct (Rle_dec (Scenario.instantaneousTotal inp g) Ammonia.AMMONIA_MAX_RANGE)
        as [Hhi | Hhi]; [split; assumption | exfalso ..];
        rewrite takeAmmoniaMeasurement_rejected in Hv by tauto; discriminate Hv.
    - intros Hr.
      destruct (takeAmmoniaMeasurement_accepted inp g Hr) as (Hcur & _).
      rewrite Hcur. reflexivity. }
  split; [exact Hamm | ]. split; [ | split].
  - intros inp g Hlow.
    destruct (Ammonia.dataValid _) eqn:E; [ | reflexivity].
    apply Hamm in E. lra.
  - exact performMeasurement_valid_iff.
  - intros inp g d Hneg.
    destruct (valid d) eqn:E; [ | reflexivity].
    apply performMeasurement_valid_iff in E. subst d. lra.
Qed.

Lemma C7_valid_only_in_range_witness :
  let cold := snd (performMeasurement (idleInputs (-275)) defaultGlobals) in
  let mild := snd (performMeasurement (idleInputs 20) defaultGlobals) in
  nitrite_concentration cold = -5 /\ valid cold = false /\ valid mild = true.
Proof.
  cbv zeta.
  destruct C7_valid_only_in_range as (_ & _ & Hiff & Hneg).
  destruct (idle_cycle_concentrations (-275)) as (Hc2 & _).
  destruct (idle_cycle_concentrations 20) as (Hm2 & Hm3 & Hmt).
  cbv zeta in Hc2, Hm2, Hm3, Hmt.
  assert (Hfive : nitrite_concentration
                    (snd (performMeasurement (idleInputs (-275)) defaultGlobals)) = -5)
    by (rewrite Hc2; lra).
  split; [exact Hfive | ]. split.
  - apply (Hneg (idleInputs (-275)) defaultGlobals). rewrite Hfive. lra.
  - apply (Hiff (idleInputs 20) defaultGlobals). rewrite Hm2, Hm3, Hmt. lra.
Defined.

(** C7 as stated fails on the ammonia module: with the probe at 60 degrees
    the reading is valid and carries 60 as its temperature; with the probe
    reporting -127 (no sensor) the reading is valid as well, the
    temperature being replaced by 25. *)
Lemma C7_counterexample :
  let g := Scenario.calibratedWith Scenario.zeroInterceptCurve in
  let hot := Ammonia.currentReading
               (Ammonia.takeAmmoniaMeasurement (Scenario.idleInputs 60 9.5) g) in
  let lost := Ammonia.currentReading
                (Ammonia.takeAmmoniaMeasurement (Scenario.idleInputs (-127) 9.5) g) in
  Ammonia.dataValid hot = true /\ Ammonia.temperature hot = 60
  /\ Ammonia.dataValid lost = true /\ Ammonia.temperature lost = 25.
Proof.
  cbv zeta.
  assert (Hr : forall t,
             Ammonia.AMMONIA_MIN_RANGE
             <= Scenario.instantaneousTotal (Scenario.idleInputs t 9.5)
                  (Scenario.calibratedWith Scenario.zeroInterceptCurve)
             <= Ammonia.AMMONIA_MAX_RANGE).
  { intros t. rewrite idle_total.
    unfold Ammonia.AMMONIA_MIN_RANGE, Ammonia.AMMONIA_MAX_RANGE. lra. }
  destruct (takeAmmoniaMeasurement_accepted _ _ (Hr 60)) as (Hhot & _).
  destruct (takeAmmoniaMeasurement_accepted _ _ (Hr (-127))) as (Hlost & _).
  rewrite Hhot, Hlost. cbn [Ammonia.dataValid Ammonia.temperature].
  rewrite readTemperature_accepts by (cbn; lra).
  rewrite readTemperature_rejects by (cbn; lra).
  unfold Ammonia.REFERENCE_TEMP. cbn. repeat split; lra.
Qed.

End ValidityClaims.

Section UncalibratedClaims.
Local Open Scope R_scope.
Import NitriteNitrate NitriteScenario.

Lemma calculateAmmoniaConcentration_uncalibrated (c : Ammonia.CalibrationData)
    (v T : R) :
  Ammonia.isValid c = false -> Ammonia.calculateAmmoniaConcentration c v T = 0.
Proof.
  intros H. unfold Ammonia.calculateAmmoniaConcentration. rewrite H. cbn. lra.
Qed.

Lemma idle_cycle_valid :
  valid (snd (performMeasurement (idleInputs 20) defaultGlobals)) = true.
Proof.
  apply performMeasurement_valid_iff.
  destruct (idle_cycle_concentrations 20) as (H2 & H3 & Ht).
  cbv zeta in H2, H3, Ht. rewrite H2, H3, Ht. lra.
Qed.

(** C8, as the code has it.  Nitrite/nitrate without a calibration: outside
    dummy mode both concentrations come from the default model (default
    slope and intercept of the configuration, then the compensation
    factors); a valid cycle carries a quality score of at most 70 and is
    published with [calibrated = false].  Ammonia without a valid
    calibration: the concentration is the constant 0, the reading is marked
    invalid, and nothing else of the globals changes. *)
Theorem C8_uncalibrated_cycle :
  (forall (inp : Inputs) (g : Globals),
      calibrated (calibration g) = false ->
      let g' := fst (performMeasurement inp g) in
      let d := snd (performMeasurement inp g) in
      (dummy_mode (config g) = false ->
       nitrite_concentration d =
         defaultModel g (nitrite_slope (config g)) (nitrite_intercept (config g))
                      (readAnalogVoltage (analogNitrite inp)) (tempSensorC inp)
                      (1.0 + ph_compensation (config g) * (7.0 - 7.0))
       /\ nitrate_concentration d =
         defaultModel g (nitrate_slope (config g)) (nitrate_intercept (config g))
                      (readAnalogVoltage (analogNitrate inp)) (tempSensorC inp) 1)
      /\ (valid d = true ->
          (0 <= quality_score d <= 70)%Z
          /\ In (DataMsg d false (sensorHealthy g) (dummy_mode (config g)))
                (mqttLog g')))
  /\ (forall (inp : Ammonia.Inputs) (g : Ammonia.Globals),
         Ammonia.isValid (Ammonia.calibration g) = false ->
         Scenario.instantaneousTotal inp g = 0
         /\ Ammonia.takeAmmoniaMeasurement inp g =
            Ammonia.mkGlobals
              (Ammonia.set_dataValid false (Ammonia.currentReading g))
              (Ammonia.calibration g) (Ammonia.ammoniaBuffer g)
              (Ammonia.bufferIndex g) (Ammonia.rtcData g) (Ammonia.eeprom g)
              (Ammonia.mqttLog g)).
Proof.
  split.
  - intros inp g Hcal. cbv zeta. split.
    + intros Hdummy.
      destruct (performMeasurement_default_model inp g Hcal Hdummy) as (H2 & H3 & _).
      split; assumption.
    + intros Hvalid.
      destruct (performMeasurement_valid_publishes inp g Hvalid) as (Hscore & Hpub).
      rewrite Hcal in Hpub. split; [ | exact Hpub].
      rewrite Hscore. split.
      * apply calculateQualityScore_bounds.
      * apply calculateQualityScore_uncalibrated. exact Hcal.
  - intros inp g Hinvalid.
    assert (Hzero : Scenario.instantaneousTotal inp g = 0)
      by (apply calculateAmmoniaConcentration_uncalibrated; exact Hinvalid).
    split; [exact Hzero | ].
    apply takeAmmoniaMeasurement_rejected. rewrite Hzero.
    unfold Ammonia.AMMONIA_MIN_RANGE. lra.
Qed.

Lemma C8_uncalibrated_cycle_witness :
  let d := snd (performMeasurement (idleInputs 20) defaultGlobals) in
  valid d = true /\ (0 <= quality_score d <= 70)%Z.
Proof.
  cbv zeta.
  destruct C8_uncalibrated_cycle as (Hnit & _).
  destruct (Hnit (idleInputs 20) defaultGlobals eq_refl) as (_ & Hscore).
  pose proof idle_cycle_valid as Hvalid.
  split; [exact Hvalid | ]. apply Hscore. exact Hvalid.
Defined.

(** C8 as stated fails on the ammonia module: at power-on, without a
    calibration, the concentration is 0 at 0 V and at 3.3 V alike, and the
    cycle marks its reading invalid and publishes nothing. *)
Lemma C8_counterexample :
  let g := Ammonia.bootGlobals Scenario.blankEEPROM in
  let g' := Ammonia.takeAmmoniaMeasurement (Scenario.idleInputs 25 7) g in
  Ammonia.isValid (Ammonia.calibration g) = false
  /\ Ammonia.calculateAmmoniaConcentration (Ammonia.calibration g) 0 25 = 0
  /\ Ammonia.calculateAmmoniaConcentration (Ammonia.calibration g) 3.3 25 = 0
  /\ Ammonia.dataValid (Ammonia.currentReading g') = false
  /\ Ammonia.mqttLog g' = [].
Proof.
  cbv zeta.
  split; [reflexivity | ].
  split; [apply calculateAmmoniaConcentration_uncalibrated; reflexivity | ].
  split; [apply calculateAmmoniaConcentration_uncalibrated; reflexivity | ].
  rewrite takeAmmoniaMeasurement_rejected.
  - split; reflexivity.
  - unfold Scenario.instantaneousTotal.
    rewrite calculateAmmoniaConcentration_uncalibrated by reflexivity.
    unfold Ammonia.AMMONIA_MIN_RANGE. lra.
Qed.

End UncalibratedClaims.

(** ** The sample-preparation state machine *)

Section PreparationCycle.
Import TocBod.
Local Open Scope Z_scope.

Lemma SampleState_eqb_eq (a b : SampleState) : SampleState_eqb a b = true <-> a = b.
Proof. destruct a, b; cbn; split; intros H; try reflexivity; discriminate H. Qed.

Lemma takeMeasurement_timer (inp : Inputs) (g : Globals) :
  stateStartTime (takeMeasurement inp g) = stateStartTime g.
Proof.
  unfold takeMeasurement, handleSensorError.
  destruct (isValidReading _ _ _); [reflexivity | ].
  destruct (consecutiveErrors g + 1 >=? 5); reflexivity.
Qed.

(** One pass of the state machine: a state other than IDLE is left for its
    successor exactly when more than its dwell time has elapsed. *)
Lemma handleSampleStateMachine_state (inp : Inputs) (g : Globals) :
  currentState (handleSampleStateMachine inp g) =
  if negb (SampleState_eqb (currentState g) IDLE)
     && (elapsed (millis inp) (stateStartTime g) >? dwell (currentState g))
  then next (currentState g)
  else currentState g.
Proof.
  unfold handleSampleStateMachine.
  destruct (currentState g) eqn:Hs; cbn [SampleState_eqb negb andb dwell next];
    [assumption | ..];
    cbn [stateStartTime set_pins];
    match goal with |- context [(?a >? ?b)] => destruct (a >? b) end;
    cbn; try reflexivity; assumption.
Qed.

(** A pass that does not change the state does not restart its timer. *)
Lemma handleSampleStateMachine_timer (inp : Inputs) (g : Globals) :
  currentState (handleSampleStateMachine inp g) = currentState g ->
  stateStartTime (handleSampleStateMachine inp g) = stateStartTime g.
Proof.
  unfold handleSampleStateMachine.
  destruct (currentState g) eqn:Hs; [reflexivity | ..];
    cbn [stateStartTime set_pins];
    match goal with |- context [(?a >? ?b)] => destruct (a >? b) end;
    cbn; try reflexivity; try discriminate.
Qed.

Lemma startMeasurementCycle_busy (now : Z) (g : Globals) :
  currentState g <> IDLE -> startMeasurementCycle now g = g.
Proof.
  intros Hbusy. unfold startMeasurementCycle.
  destruct (SampleState_eqb (currentState g) IDLE) eqn:E; [ | reflexivity].
  apply SampleState_eqb_eq in E. contradiction.
Qed.

Lemma startMeasurementCycle_idle (now : Z) (g : Globals) :
  currentState g = IDLE ->
  currentState (startMeasurementCycle now g) = SAMPLING
  /\ stateStartTime (startMeasurementCycle now g) = now.
Proof.
  intros Hidle. unfold startMeasurementCycle. rewrite Hidle. cbn. split; reflexivity.
Qed.

Lemma apply_event_step (g : Globals) (e : Event) :
  currentState (apply_event g e) = currentState g
  \/ currentState (apply_event g e) = next (currentState g).
Proof.
  destruct e as [inp | now]; cbn [apply_event].
  - rewrite handleSampleStateMachine_state.
    destruct (negb _ && _); [right | left]; reflexivity.
  - destruct (SampleState_eqb (currentState g) IDLE) eqn:E.
    + apply SampleState_eqb_eq in E. right.
      rewrite (proj1 (startMeasurementCycle_idle now g E)), E. reflexivity.
    + left. rewrite startMeasurementCycle_busy; [reflexivity | ].
      intros H. apply SampleState_eqb_eq in H. congruence.
Qed.

Lemma trace_follows_cycle (es : list Event) :
  forall g, follows_cycle (currentState g) (trace g es).
Proof.
  induction es as [ | e es IH]; intros g; cbn [trace follows_cycle].
  - exact I.
  - split; [apply apply_event_step | apply IH].
Qed.

(** A tick after the dwell time moves a busy machine on. *)
Lemma tick_advances (inp : Inputs) (g : Globals) :
  currentState g <> IDLE ->
  dwell (currentState g) < elapsed (millis inp) (stateStartTime g) ->
  currentState (handleSampleStateMachine inp g) = next (currentState g)
  /\ (next (currentState g) <> IDLE ->
      stateStartTime (handleSampleStateMachine inp g) = millisAtSet inp).
Proof.
  intros Hbusy Hlate.
  assert (Hgt : (elapsed (millis inp) (stateStartTime g) >? dwell (currentState g)) = true)
    by (apply Z.gtb_lt; exact Hlate).
  split.
  - rewrite handleSampleStateMachine_state, Hgt.
    destruct (currentState g); try reflexivity. contradiction.
  - unfold handleSampleStateMachine.
    destruct (currentState g) eqn:Hs; cbn [dwell next] in *;
      try contradiction; cbn [stateStartTime set_pins]; rewrite Hgt; cbn;
      intros H; try reflexivity; contradiction.
Qed.

(** A start request followed by four passes, each later than the dwell time
    of the state it finds, takes an idle machine once round the cycle. *)
Lemma full_cycle (g : Globals) (t0 : Z) (i1 i2 i3 i4 : Inputs) :
  currentState g = IDLE ->
  dwell SAMPLING < elapsed (millis i1) t0 ->
  dwell HEATING < elapsed (millis i2) (millisAtSet i1) ->
  dwell MEASURING < elapsed (millis i3) (millisAtSet i2) ->
  dwell CLEANING < elapsed (millis i4) (millisAtSet i3) ->
  trace g [StartRequest t0; Tick i1; Tick i2; Tick i3; Tick i4]
  = [SAMPLING; HEATING; MEASURING; CLEANING; IDLE].
Proof.
  intros Hidle H1 H2 H3 H4. cbn [trace apply_event].
  destruct (startMeasurementCycle_idle t0 g Hidle) as [Hs0 Ht0].
  set (g0 := startMeasurementCycle t0 g) in *.
  destruct (tick_advances i1 g0) as [Hs1 Ht1];
    [rewrite Hs0; discriminate | rewrite Hs0, Ht0; exact H1 | ].
  rewrite Hs0 in Hs1, Ht1. cbn [next] in Hs1, Ht1.
  specialize (Ht1 ltac:(discriminate)).
  set (g1 := handleSampleStateMachine i1 g0) in *.
  destruct (tick_advances i2 g1) as [Hs2 Ht2];
    [rewrite Hs1; discriminate | rewrite Hs1, Ht1; exact H2 | ].
  rewrite Hs1 in Hs2, Ht2. cbn [next] in Hs2, Ht2.
  specialize (Ht2 ltac:(discriminate)).
  set (g2 := handleSampleStateMachine i2 g1) in *.
  destruct (tick_advances i3 g2) as [Hs3 Ht3];
    [rewrite Hs2; discriminate | rewrite Hs2, Ht2; exact H3 | ].
  rewrite Hs2 in Hs3, Ht3. cbn [next] in Hs3, Ht3.
  specialize (Ht3 ltac:(discriminate)).
  set (g3 := handleSampleStateMachine i3 g2) in *.
  destruct (tick_advances i4 g3) as [Hs4 _];
    [rewrite Hs3; discriminate | rewrite Hs3, Ht3; exact H4 | ].
  rewrite Hs3 in Hs4. cbn [next] in Hs4.
  rewrite Hs0, Hs1, Hs2, Hs3, Hs4. reflexivity.
Qed.

(** A pass that comes no later than the dwell time of the state it finds
    changes neither the state nor its timer. *)
Lemma tick_dwells (inp : Inputs) (g : Globals) :
  (millis inp - stateStartTime g) mod 2 ^ 32 <= dwell (currentState g) ->
  currentState (handleSampleStateMachine inp g) = currentState g
  /\ stateStartTime (handleSampleStateMachine inp g) = stateStartTime g.
Proof.
  intros Hearly.
  assert (Hs : currentState (handleSampleStateMachine inp g) = currentState g).
  { rewrite handleSampleStateMachine_state. unfold elapsed.
    assert (Hle : ((millis inp - stateStartTime g) mod 2 ^ 32 >? dwell (currentState g))
                  = false) by (rewrite Z.gtb_ltb; apply Z.ltb_ge; exact Hearly).
    rewrite Hle, andb_false_r. reflexivity. }
  split; [exact Hs | apply handleSampleStateMachine_timer; exact Hs].
Qed.

(** C9: the machine starts in IDLE; the successor of each state is the next
    one in IDLE, SAMPLING, HEATING, MEASURING, CLEANING, IDLE and the dwell
    times of the four busy states are 30 s, 60 s, 5 s and 15 s; a pass leaves
    a busy state for its successor exactly when the time since the state was
    entered, [millis - stateStartTime] as an unsigned 32-bit difference,
    exceeds the dwell time of that state, and then restarts the timer of the
    new busy state; a pass that comes earlier changes neither state nor
    timer; a start request acts only in IDLE and leaves a busy machine as it
    is; so every run moves along the cycle, and passes that come after the
    dwell times complete it. *)
Theorem C9_preparation_cycle :
  currentState initGlobals = IDLE
  /\ map next [IDLE; SAMPLING; HEATING; MEASURING; CLEANING]
     = [SAMPLING; HEATING; MEASURING; CLEANING; IDLE]
  /\ map dwell [SAMPLING; HEATING; MEASURING; CLEANING] = [30000; 60000; 5000; 15000]
  /\ (forall (inp : Inputs) (g : Globals),
         currentState (handleSampleStateMachine inp g) =
         if negb (SampleState_eqb (currentState g) IDLE)
            && ((millis inp - stateStartTime g) mod 2 ^ 32 >? dwell (currentState g))
         then next (currentState g)
         else currentState g)
  /\ (forall (inp : Inputs) (g : Globals),
         currentState g <> IDLE ->
         dwell (currentState g) < (millis inp - stateStartTime g) mod 2 ^ 32 ->
         currentState (handleSampleStateMachine inp g) = next (currentState g)
         /\ (next (currentState g) <> IDLE ->
             stateStartTime (handleSampleStateMachine inp g) = millisAtSet inp))
  /\ (forall (inp : Inputs) (g : Globals),
         (millis inp - stateStartTime g) mod 2 ^ 32 <= dwell (currentState g) ->
         currentState (handleSampleStateMachine inp g) = currentState g
         /\ stateStartTime (handleSampleStateMachine inp g) = stateStartTime g)
  /\ (forall (inp : Inputs) (g : Globals),
         currentState (handleSampleStateMachine inp g) = currentState g ->
         stateStartTime (handleSampleStateMachine inp g) = stateStartTime g)
  /\ (forall (now : Z) (g : Globals),
         currentState g <> IDLE -> startMeasurementCycle now g = g)
  /\ (forall (now : Z) (g : Globals),
         currentState g = IDLE ->
         currentState (startMeasurementCycle now g) = SAMPLING
         /\ stateStartTime (startMeasurementCycle now g) = now)
  /\ (forall (g : Globals) (es : list Event),
         follows_cycle (currentState g) (trace g es))
  /\ (forall (g : Globals) (t0 : Z) (i1 i2 i3 i4 : Inputs),
         currentState g = IDLE ->
         30000 < (millis i1 - t0) mod 2 ^ 32 ->
         60000 < (millis i2 - millisAtSet i1) mod 2 ^ 32 ->
         5000 < (millis i3 - millisAtSet i2) mod 2 ^ 32 ->
         15000 < (millis i4 - millisAtSet i3) mod 2 ^ 32 ->
         trace g [StartRequest t0; Tick i1; Tick i2; Tick i3; Tick i4]
         = [SAMPLING; HEATING; MEASURING; CLEANING; IDLE]).
Proof.
  split; [reflexivity | ].
  split; [reflexivity | ].
  split; [reflexivity | ].
  split; [exact handleSampleStateMachine_state | ].
  split; [exact tick_advances | ].
  split; [exact tick_dwells | ].
  split; [exact handleSampleStateMachine_timer | ].
  split; [exact startMeasurementCycle_busy | ].
  split; [exact startMeasurementCycle_idle | ].
  split; [intros g es; apply trace_follows_cycle | exact full_cycle].
Qed.

Lemma C9_preparation_cycle_witness :
  trace initGlobals
        [StartRequest 100000; tickAt 120000; tickAt 130001; StartRequest 140000;
         tickAt 190001; tickAt 190002; tickAt 195003; tickAt 210003; tickAt 210004]
  = [SAMPLING; SAMPLING; HEATING; HEATING; HEATING; MEASURING; CLEANING; CLEANING; IDLE]
  /\ trace initGlobals
           [StartRequest 100000; tickAt 130001; tickAt 190002; tickAt 195003;
            tickAt 210004]
     = [SAMPLING; HEATING; MEASURING; CLEANING; IDLE].
Proof.
  destruct C9_preparation_cycle as (_ & _ & _ & _ & _ & _ & _ & _ & _ & _ & Hfull).
  split; [reflexivity | ].
  apply (Hfull initGlobals 100000); reflexivity.
Defined.

End PreparationCycle.

(** * Further properties of the ammonia module *)

Section AmmoniaInputs.
Local Open Scope R_scope.
Import Ammonia AmmoniaMore Scenario.

(** The temperature and the pH a cycle works with are always inside the
    accepted windows: a probe value outside (-50, 125) becomes 25, a pH
    outside 0..14 becomes 7. *)
Theorem sanitised_inputs (inp : Inputs) :
  -50 < readTemperature inp < 125
  /\ 0 <= readPH inp <= 14
  /\ (~ (-50 < tempSensorC inp < 125) -> readTemperature inp = 25)
  /\ (~ (0 <= phResponse inp <= 14) -> readPH inp = 7).
Proof.
  unfold readTemperature, readPH, REFERENCE_TEMP.
  destruct (Rgtb (tempSensorC inp) (-50.0)) eqn:T1;
    destruct (Rltb (tempSensorC inp) 125.0) eqn:T2;
    destruct (Rgeb (phResponse inp) 0.0) eqn:P1;
    destruct (Rleb (phResponse inp) 14.0) eqn:P2; cbn [andb];
    try apply Rgtb_true in T1; try apply Rltb_true in T2;
    try apply Rgeb_true in P1; try apply Rleb_true in P2;
    repeat split; try lra; intros H; try lra; exfalso; apply H; lra.
Qed.

Lemma ise_loop_all_valid (rd : nat -> Z) (l : list nat) (acc : R * Z) :
  (forall i, In i l -> (0 <= rd i <= 4095)%Z) ->
  fold_left
    (fun (acc : R * Z) i =>
       let rawReading := rd i in
       let voltage := (IZR rawReading * 3.3) / 4095.0 in
       if (Rgeb voltage 0.0) && (Rleb voltage 3.3)
       then (fst acc + voltage, (snd acc + 1)%Z)
       else acc) l acc
  = (fst acc + fold_right (fun i s => IZR (rd i) * 3.3 / 4095 + s) 0 l,
     (snd acc + Z.of_nat (length l))%Z).
Proof.
  revert acc. induction l as [ | i l IH]; intros acc Hall.
  - cbn. destruct acc as [s k]. cbn. f_equal; [lra | lia].
  - cbn [fold_left].
    assert (Hi : (0 <= rd i <= 4095)%Z) by (apply Hall; left; reflexivity).
    destruct Hi as [Hlo Hhi]. apply IZR_le in Hlo, Hhi.
    assert (H1 : Rgeb (IZR (rd i) * 3.3 / 4095.0) 0.0 = true) by (apply Rgeb_true; lra).
    assert (H2 : Rleb (IZR (rd i) * 3.3 / 4095.0) 3.3 = true) by (apply Rleb_true; lra).
    cbv zeta. rewrite H1, H2. cbn [andb].
    rewrite IH by (intros j Hj; apply Hall; right; exact Hj).
    cbn [fst snd fold_right length]. f_equal; [lra | lia].
Qed.

(** The electrode voltage lies between 0 and 3.3 V whatever the converter
    returns; when the ten samples are 12-bit counts it is their mean scaled
    by 3.3/4095. *)
Theorem readISEVoltage_mean (rd : nat -> Z) :
  0 <= readISEVoltage rd <= 3.3
  /\ ((forall i, (i < 10)%nat -> (0 <= rd i <= 4095)%Z) ->
      readISEVoltage rd
      = fold_right (fun i s => IZR (rd i) * 3.3 / 4095 + s) 0 (seq 0 10) / 10).
Proof.
  split; [apply readISEVoltage_range | ].
  intros Hall. unfold readISEVoltage, for_loop.
  rewrite ise_loop_all_valid.
  - cbn [fst snd length seq]. change (0 + Z.of_nat 10 >? 0)%Z with true.
    cbv iota. change (0 + Z.of_nat 10)%Z with 10%Z. lra.
  - intros i Hi. apply Hall. apply in_seq in Hi. lia.
Qed.

Lemma readISEVoltage_mean_witness :
  readISEVoltage (steadyADC 4095) = 3.3.
Proof.
  destruct (readISEVoltage_mean (steadyADC 4095)) as [_ Hmean].
  rewrite Hmean.
  - unfold steadyADC. cbn. lra.
  - intros i _. unfold steadyADC. lia.
Defined.

End AmmoniaInputs.

Section AmmoniaEquilibrium.
Local Open Scope R_scope.
Import Ammonia AmmoniaMore Scenario.

Lemma pow10_lt (x y : R) : x < y -> pow10 x < pow10 y.
Proof. intros H. unfold pow10. apply Rpower_lt; lra. Qed.

Lemma fraction_lt (e1 e2 : R) :
  e2 < e1 -> 1.0 / (1.0 + pow10 e1) < 1.0 / (1.0 + pow10 e2).
Proof.
  intros H. pose proof (pow10_lt _ _ H) as Hp.
  pose proof (pow10_pos e1). pose proof (pow10_pos e2).
  unfold Rdiv. apply Rmult_lt_compat_l; [lra | ].
  apply Rinv_lt_contravar; [ | lra].
  apply Rmult_lt_0_compat; lra.
Qed.

Lemma free_fraction_bounds (p T : R) : 0 < calculateFreeAmmoniaFraction p T < 1.
Proof.
  unfold calculateFreeAmmoniaFraction.
  match goal with |- context [pow10 ?e] => pose proof (pow10_pos e) as Hp;
                                           set (q := pow10 e) in * end.
  split.
  - apply Rdiv_lt_0_compat; lra.
  - apply Rmult_lt_reg_r with (1.0 + q); [lra | ].
    unfold Rdiv. rewrite Rmult_assoc, Rinv_l by lra. lra.
Qed.

(** The free-ammonia fraction lies strictly between 0 and 1, rises with
    the pH and, as the code has the pKa grow with the temperature, falls
    with the temperature. *)
Theorem free_fraction_shape (p T : R) :
  0 < calculateFreeAmmoniaFraction p T < 1
  /\ (forall p', p < p' ->
        calculateFreeAmmoniaFraction p T < calculateFreeAmmoniaFraction p' T)
  /\ (forall T', T < T' ->
        calculateFreeAmmoniaFraction p T' < calculateFreeAmmoniaFraction p T).
Proof.
  split; [apply free_fraction_bounds | ].
  unfold calculateFreeAmmoniaFraction, PKA_25C, TEMP_COEFF, REFERENCE_TEMP.
  split.
  - intros p' Hp. apply fraction_lt. lra.
  - intros T' HT. apply fraction_lt. lra.
Qed.

Lemma assessToxicity_cases (z : R) :
  (2 <= z /\ assessToxicity z = "ACUTE"%string)
  \/ (0.5 <= z < 2 /\ assessToxicity z = "CRITICAL"%string)
  \/ (0.1 <= z < 0.5 /\ assessToxicity z = "WARNING"%string)
  \/ (z < 0.1 /\ assessToxicity z = "SAFE"%string).
Proof.
  unfold assessToxicity, TOXIC_ACUTE_THRESHOLD, TOXIC_CRITICAL_THRESHOLD,
    TOXIC_WARNING_THRESHOLD.
  destruct (Rgeb z 2.0) eqn:H1; [apply Rgeb_true in H1; left; split; [lra | reflexivity] | ].
  apply Rgeb_false in H1.
  destruct (Rgeb z 0.5) eqn:H2;
    [apply Rgeb_true in H2; right; left; split; [lra | reflexivity] | ].
  apply Rgeb_false in H2.
  destruct (Rgeb z 0.1) eqn:H3;
    [apply Rgeb_true in H3; right; right; left; split; [lra | reflexivity] | ].
  apply Rgeb_false in H3. right; right; right. split; [lra | reflexivity].
Qed.

(** The toxicity level is the band of the free ammonia: ACUTE from 2.0,
    CRITICAL from 0.5, WARNING from 0.1, SAFE below; more free ammonia never
    gives a lower level. *)
Theorem assessToxicity_bands (x : R) :
  (assessToxicity x = "ACUTE"%string <-> 2 <= x)
  /\ (assessToxicity x = "CRITICAL"%string <-> 0.5 <= x < 2)
  /\ (assessToxicity x = "WARNING"%string <-> 0.1 <= x < 0.5)
  /\ (assessToxicity x = "SAFE"%string <-> x < 0.1)
  /\ (forall y, x <= y ->
        (severity (assessToxicity x) <= severity (assessToxicity y))%nat).
Proof.
  pose proof assessToxicity_cases as Hcases.
  assert (Hiff : forall (lvl : string) (P : Prop),
             (assessToxicity x = lvl -> P) -> (P -> assessToxicity x = lvl) ->
             (assessToxicity x = lvl <-> P)) by (intros; split; assumption).
  split; [ | split; [ | split; [ | split]]].
  1-4: apply Hiff; intros H;
    destruct (Hcases x) as [[Hr E] | [[Hr E] | [[Hr E] | [Hr E]]]];
    try (rewrite E in H; discriminate H); try exact E; lra.
  intros y Hxy.
  destruct (Hcases x) as [[Hx Ex] | [[Hx Ex] | [[Hx Ex] | [Hx Ex]]]];
    destruct (Hcases y) as [[Hy Ey] | [[Hy Ey] | [[Hy Ey] | [Hy Ey]]]];
    rewrite Ex, Ey; cbn; try lia; lra.
Qed.

End AmmoniaEquilibrium.

Section AmmoniaRuns.
Local Open Scope R_scope.
Import Ammonia AmmoniaMore Scenario.

(** In an accepted cycle both species are positive parts of the
    instantaneous total, and the alert flag kept in RTC memory is set
    exactly when the toxicity level is not SAFE. *)
Theorem accepted_cycle_partition (inp : Inputs) (g : Globals) :
  AMMONIA_MIN_RANGE <= instantaneousTotal inp g <= AMMONIA_MAX_RANGE ->
  let g' := takeAmmoniaMeasurement inp g in
  let r := currentReading g' in
  0 < freeAmmonia r < instantaneousTotal inp g
  /\ 0 < ammonium r < instantaneousTotal inp g
  /\ lastTotalAmmonia (rtcData g') = instantaneousTotal inp g
  /\ (toxicAlert (rtcData g') = true <-> toxicityLevel r <> "SAFE"%string).
Proof.
  intros Hrange. cbv zeta.
  destruct (takeAmmoniaMeasurement_accepted inp g Hrange) as (Hr & _).
  cbv zeta in Hr. rewrite Hr. cbn [freeAmmonia ammonium toxicityLevel].
  destruct (free_fraction_bounds (readPH inp) (readTemperature inp)) as [Hf0 Hf1].
  set (f := calculateFreeAmmoniaFraction (readPH inp) (readTemperature inp)) in *.
  assert (Hpos : 0 < instantaneousTotal inp g)
    by (unfold AMMONIA_MIN_RANGE in Hrange; lra).
  set (t := instantaneousTotal inp g) in *.
  split; [nra | ]. split; [nra | ].
  unfold takeAmmoniaMeasurement. fold (instantaneousTotal inp g). fold t.
  rewrite (range_check_true _ Hrange). fold f.
  cbn [rtcData lastTotalAmmonia toxicAlert].
  split; [reflexivity | ].
  destruct (Rgeb (t * f) TOXIC_WARNING_THRESHOLD) eqn:E.
  - apply Rgeb_true in E. unfold TOXIC_WARNING_THRESHOLD in E.
    split; [ | reflexivity]. intros _ Hs.
    destruct (assessToxicity_cases (t * f)) as [[Hb L] | [[Hb L] | [[Hb L] | [Hb L]]]];
      rewrite L in Hs; try discriminate Hs. lra.
  - apply Rgeb_false in E. unfold TOXIC_WARNING_THRESHOLD in E.
    split; [discriminate | ]. intros Hne. exfalso. apply Hne.
    destruct (assessToxicity_cases (t * f)) as [[Hb L] | [[Hb L] | [[Hb L] | [Hb L]]]];
      try exact L; lra.
Qed.

Lemma accepted_cycle_partition_witness :
  let r := currentReading
             (takeAmmoniaMeasurement (idleInputs 25 9.5)
                                     (calibratedWith zeroInterceptCurve)) in
  0 < freeAmmonia r < 1 /\ 0 < ammonium r < 1.
Proof.
  cbv zeta.
  destruct (accepted_cycle_partition (idleInputs 25 9.5)
              (calibratedWith zeroInterceptCurve) scenario_B_cycle_range)
    as (Hf & Ha & _).
  cbv zeta in Hf, Ha. rewrite scenario_B_cycle_total in Hf, Ha.
  split; assumption.
Defined.

End AmmoniaRuns.

Section AveragingBuffer.
Local Open Scope R_scope.
Import Ammonia AmmoniaMore Scenario.

Lemma buffer_sum_bounds (l : list R) :
  buffer_in_range l -> 0 <= buffer_sum l <= AMMONIA_MAX_RANGE * INR (length l).
Proof.
  unfold buffer_in_range, AMMONIA_MAX_RANGE.
  induction 1 as [ | x l Hx Hl IH]; cbn [buffer_sum fold_right length].
  - cbn. lra.
  - fold (buffer_sum l). rewrite S_INR. lra.
Qed.

Lemma buffer_sum_insert_ge (l : list R) (i : nat) (x : R) :
  (i < length l)%nat -> buffer_in_range l -> x <= buffer_sum (<[i := x]> l).
Proof.
  unfold buffer_in_range. intros Hi Hl. revert i Hi.
  induction Hl as [ | y l Hy Hl IH]; intros i Hi; [cbn in Hi; lia | ].
  destruct i as [ | i].
  - change (<[0%nat := x]> (y :: l)) with (x :: l).
    pose proof (buffer_sum_bounds l Hl) as [H0 _].
    unfold buffer_sum in *. cbn [fold_right]. lra.
  - change (<[S i := x]> (y :: l)) with (y :: <[i := x]> l).
    specialize (IH i ltac:(cbn in Hi; lia)).
    unfold buffer_sum in *. cbn [fold_right]. lra.
Qed.

Lemma takeAmmoniaMeasurement_wf (inp : Inputs) (g : Globals) :
  averaging_wf g -> averaging_wf (takeAmmoniaMeasurement inp g).
Proof.
  intros (Hlen & Hrng & Hidx & Hval).
  destruct (Rle_dec AMMONIA_MIN_RANGE (instantaneousTotal inp g)) as [Hlo | Hlo];
    [destruct (Rle_dec (instantaneousTotal inp g) AMMONIA_MAX_RANGE) as [Hhi | Hhi] | ].
  - destruct (takeAmmoniaMeasurement_accepted inp g (conj Hlo Hhi))
      as (Hr & Hbuf & Hix & _).
    cbv zeta in Hr, Hbuf, Hix.
    assert (Hrng' : buffer_in_range (ammoniaBuffer (takeAmmoniaMeasurement inp g))).
    { rewrite Hbuf. apply Forall_insert; [exact Hrng | ].
      unfold AMMONIA_MIN_RANGE in Hlo. lra. }
    assert (Hlen' : length (ammoniaBuffer (takeAmmoniaMeasurement inp g))
                    = MAX_READINGS_BUFFER)
      by (rewrite Hbuf, length_insert; exact Hlen).
    split; [exact Hlen' | ]. split; [exact Hrng' | ].
    split; [rewrite Hix; apply Nat.mod_upper_bound; discriminate | ].
    intros _. rewrite Hr. cbn [totalAmmonia]. rewrite <- Hbuf.
    rewrite buffer_average_sum by exact Hlen'.
    pose proof (buffer_sum_bounds _ Hrng') as [_ Hup]. rewrite Hlen' in Hup.
    assert (Hge : instantaneousTotal inp g
                  <= buffer_sum (ammoniaBuffer (takeAmmoniaMeasurement inp g))).
    { rewrite Hbuf. apply buffer_sum_insert_ge; [rewrite Hlen; exact Hidx | exact Hrng]. }
    unfold MAX_READINGS_BUFFER, AMMONIA_MAX_RANGE, AMMONIA_MIN_RANGE in *.
    cbn [INR] in *.
    set (s := buffer_sum (ammoniaBuffer (takeAmmoniaMeasurement inp g))) in *.
    split.
    + apply Rdiv_lt_0_compat; lra.
    + apply Rmult_le_reg_r with (1 + 1 + 1 + 1 + 1 + 1 + 1 + 1 + 1 + 1); [lra | ].
      unfold Rdiv. rewrite Rmult_assoc, Rinv_l by lra. lra.
  - rewrite takeAmmoniaMeasurement_rejected by tauto.
    cbn [ammoniaBuffer bufferIndex currentReading set_dataValid dataValid].
    split; [assumption | ]. split; [assumption | ]. split; [assumption | discriminate].
  - rewrite takeAmmoniaMeasurement_rejected by tauto.
    cbn [ammoniaBuffer bufferIndex currentReading set_dataValid dataValid].
    split; [assumption | ]. split; [assumption | ]. split; [assumption | discriminate].
Qed.

Lemma bootGlobals_wf (e : EEPROM) : averaging_wf (bootGlobals e).
Proof.
  unfold averaging_wf, bootGlobals, buffer_in_range, MAX_READINGS_BUFFER,
    AMMONIA_MAX_RANGE.
  cbn [ammoniaBuffer bufferIndex currentReading dataValid].
  split; [reflexivity | ]. split; [ | split; [lia | discriminate]].
  apply Forall_replicate. lra.
Qed.

(** Over any sequence of sampling cycles the averaging buffer keeps its ten
    slots, every slot stays between 0 and 100 mg/L, the write index stays
    inside the buffer, and whenever the current reading is marked valid its
    averaged total is positive and at most 100 mg/L. *)
Theorem averaging_state_invariant (g : Globals) (inps : list Inputs) :
  averaging_wf g -> averaging_wf (runCycles g inps).
Proof.
  unfold runCycles. revert g.
  induction inps as [ | inp inps IH]; intros g Hwf; cbn [fold_left].
  - exact Hwf.
  - apply IH. apply takeAmmoniaMeasurement_wf. exact Hwf.
Qed.

Lemma averaging_state_invariant_witness :
  averaging_wf
    (runCycles (calibratedWith zeroInterceptCurve)
               [idleInputs 25 9.5; idleInputs 60 7; idleInputs (-127) 9.5]).
Proof.
  apply averaging_state_invariant.
  exact (bootGlobals_wf blankEEPROM).
Defined.

End AveragingBuffer.

Section AmmoniaStoreAndHealth.
Local Open Scope R_scope.
Import Ammonia AmmoniaMore Scenario.

(** Saving and loading in place leaves the curve in memory as it is, and
    saving writes no cell other than the validity byte at 0, the floats at 4
    and 8 and the date at 12. *)
Theorem save_load_in_place (g : Globals) :
  calibration (loadCalibrationData (saveCalibrationData g)) = calibration g
  /\ (forall a : Z, a <> CALIB_VALID_ADDR ->
        ee_bool (eeprom (saveCalibrationData g)) a = ee_bool (eeprom g) a)
  /\ (forall a : Z, a <> CALIB_SLOPE_ADDR -> a <> CALIB_INTERCEPT_ADDR ->
        ee_float (eeprom (saveCalibrationData g)) a = ee_float (eeprom g) a)
  /\ (forall a : Z, a <> CALIB_DATE_ADDR ->
        ee_ulong (eeprom (saveCalibrationData g)) a = ee_ulong (eeprom g) a).
Proof.
  split; [ | split; [ | split]].
  - destruct g as [r c b i rtc e log]. destruct c. reflexivity.
  - intros a Ha. cbn. apply Z.eqb_neq in Ha. rewrite Ha. reflexivity.
  - intros a H1 H2. cbn. apply Z.eqb_neq in H1, H2.
    unfold CALIB_SLOPE_ADDR, CALIB_INTERCEPT_ADDR in *. rewrite H1, H2. reflexivity.
  - intros a Ha. cbn. apply Z.eqb_neq in Ha. rewrite Ha. reflexivity.
Qed.

Lemma save_load_in_place_witness :
  ee_float (eeprom (saveCalibrationData (calibratedWith scenarioCurve)))
           CALIB_POINTS_ADDR = 0.
Proof.
  destruct (save_load_in_place (calibratedWith scenarioCurve)) as (_ & _ & Hf & _).
  rewrite Hf by discriminate. reflexivity.
Defined.

Lemma log10_pow10 (y : R) : log10 (pow10 y) = y.
Proof.
  unfold pow10, log10, Rpower. rewrite ln_exp.
  field. pose proof ln_10_pos. lra.
Qed.

(** Measuring inverts the stored electrode line.  For a valid curve of
    non-zero slope and a temperature above absolute zero, with [s] the
    temperature-compensated slope: the voltage [s * log10 x + intercept]
    reads as the concentration [x]; every voltage reads as a positive
    concentration that lies on that line; and with a falling response
    (negative slope) a higher voltage reads as a lower concentration. *)
Theorem concentration_inverts_response (c : CalibrationData) (temperature : R) :
  isValid c = true -> slope c <> 0 -> -273.15 < temperature ->
  let s := slope c * (temperature + 273.15) / (REFERENCE_TEMP + 273.15) in
  (forall x : R, 0 < x ->
      calculateAmmoniaConcentration c (s * log10 x + intercept c) temperature = x)
  /\ (forall v : R,
        0 < calculateAmmoniaConcentration c v temperature
        /\ s * log10 (calculateAmmoniaConcentration c v temperature) + intercept c = v)
  /\ (slope c < 0 -> forall v w : R, v < w ->
        calculateAmmoniaConcentration c w temperature
        < calculateAmmoniaConcentration c v temperature).
Proof.
  intros Hvalid Hslope Htemp s.
  assert (Hs : s <> 0).
  { unfold s, REFERENCE_TEMP, Rdiv.
    apply Rmult_integral_contrapositive_currified;
      [apply Rmult_integral_contrapositive_currified; [exact Hslope | lra] | ].
    apply Rinv_neq_0_compat. lra. }
  assert (Hcalc : forall v, calculateAmmoniaConcentration c v temperature
                            = pow10 ((v - intercept c) / s)).
  { intros v. unfold calculateAmmoniaConcentration. rewrite Hvalid. reflexivity. }
  split; [ | split].
  - intros x Hx. rewrite Hcalc.
    replace ((s * log10 x + intercept c - intercept c) / s) with (log10 x)
      by (field; exact Hs).
    apply pow10_log10. exact Hx.
  - intros v. rewrite Hcalc. split; [apply pow10_pos | ].
    rewrite log10_pow10. field. exact Hs.
  - intros Hneg v w Hvw. rewrite !Hcalc. apply pow10_lt.
    assert (Hsneg : s < 0).
    { unfold s, REFERENCE_TEMP, Rdiv.
      replace (slope c * (temperature + 273.15) * / (25.0 + 273.15))
        with (- ((- slope c) * ((temperature + 273.15) * / (25.0 + 273.15))))
        by ring.
      apply Ropp_lt_gt_0_contravar.
      apply Rmult_lt_0_compat; [lra | ].
      apply Rmult_lt_0_compat; [lra | apply Rinv_0_lt_compat; lra]. }
    unfold Rdiv.
    assert (Hinv : / s < 0) by (apply Rinv_lt_0_compat; exact Hsneg).
    nra.
Qed.

Lemma concentration_inverts_response_witness :
  calculateAmmoniaConcentration scenarioCurve
    (slope scenarioCurve * (25 + 273.15) / (REFERENCE_TEMP + 273.15) * log10 10
     + intercept scenarioCurve) 25 = 10.
Proof.
  destruct (concentration_inverts_response scenarioCurve 25) as [Hinv _].
  - reflexivity.
  - cbn. lra.
  - lra.
  - apply Hinv. lra.
Defined.

(** The health check passes exactly for a valid curve whose slope magnitude
    is at least 50 and whose age, counted on the wrapping millisecond clock,
    is less than eight full days; after a calibration run over the converter
    it never passes. *)
Theorem checkSensorHealth_iff (now : Z) (c : CalibrationData) :
  (checkSensorHealth now c = true <->
   isValid c = true /\ MIN_ACCEPTABLE_SLOPE <= Rabs (slope c)
   /\ ((now - calibrationDate c) mod 2 ^ 32 < 691200000)%Z)
  /\ (forall (reads : nat -> nat -> Z) (t : Z) (g : Globals),
         checkSensorHealth now (calibration (performCalibration reads t g)) = false).
Proof.
  split.
  - unfold checkSensorHealth.
    destruct (isValid c); cbn [negb]; [ | split; [discriminate | intros [H _]; discriminate H]].
    destruct (Rltb (Rabs (slope c)) MIN_ACCEPTABLE_SLOPE) eqn:Hs.
    + apply Rltb_true in Hs. split; [discriminate | intros (_ & H & _); lra].
    + assert (Hge : MIN_ACCEPTABLE_SLOPE <= Rabs (slope c)).
      { destruct (Rle_dec MIN_ACCEPTABLE_SLOPE (Rabs (slope c))); [assumption | ].
        assert (Rltb (Rabs (slope c)) MIN_ACCEPTABLE_SLOPE = true)
          by (apply Rltb_true; lra). congruence. }
      change (24 * 60 * 60 * 1000)%Z with 86400000%Z.
      set (d := ((now - calibrationDate c) mod 2 ^ 32)%Z).
      destruct (d / 86400000 >? 7)%Z eqn:Hd.
      * apply Z.gtb_lt in Hd. split; [discriminate | ].
        intros (_ & _ & Hlt). exfalso.
        assert (d / 86400000 <= 7)%Z
          by (apply Z.lt_succ_r, Z.div_lt_upper_bound; lia).
        lia.
      * split; [ | reflexivity]. intros _. split; [reflexivity | ].
        split; [exact Hge | ].
        assert (Hle : (d / 86400000 <= 7)%Z)
          by (destruct (Z.gtb_spec (d / 86400000) 7); [discriminate | lia]).
        pose proof (Z.mul_succ_div_gt d 86400000 ltac:(lia)). lia.
  - intros reads t g. unfold checkSensorHealth.
    destruct (performCalibration_always_rejected reads t g) as [Hinv _].
    rewrite Hinv. reflexivity.
Qed.

(** The low-power condition holds exactly for battery samples up to 2109
    counts (3.4 V behind the divider). *)
Theorem checkLowPowerCondition_threshold (raw : Z) :
  checkLowPowerCondition raw = true <-> (raw <= 2109)%Z.
Proof.
  unfold checkLowPowerCondition, LOW_POWER_THRESHOLD. rewrite Rltb_true.
  split.
  - intros H. destruct (Z.le_gt_cases raw 2109) as [Hle | Hgt]; [exact Hle | exfalso].
    assert (2110 <= raw)%Z by lia.
    apply IZR_le in H0. lra.
  - intros H. apply IZR_le in H. lra.
Qed.

End AmmoniaStoreAndHealth.

(** * Further properties of the nitrite/nitrate module *)

Section NitriteDummy.
Local Open Scope R_scope.
Import NitriteNitrate NitriteMore NitriteScenario.

Lemma random_range (lo hi r : Z) :
  (lo < hi)%Z -> (0 <= r)%Z -> (lo <= random lo hi r < hi)%Z.
Proof.
  intros Hlt Hr. unfold random.
  destruct (lo >=? hi)%Z eqn:E; [apply Z.geb_le in E; lia | ].
  pose proof (Z.rem_bound_pos r (hi - lo) Hr ltac:(lia)). lia.
Qed.

Lemma performMeasurement_counter (inp : Inputs) (g : Globals) :
  let g' := fst (performMeasurement inp g) in
  let d := snd (performMeasurement inp g) in
  (valid d = true -> consecutiveErrors g' = 0%Z)
  /\ (valid d = false ->
      consecutiveErrors g' = (consecutiveErrors g + 1)%Z /\ mqttLog g' = mqttLog g)
  /\ config g' = config g /\ calibration g' = calibration g
  /\ sensorHealthy g' = sensorHealthy g.
Proof.
  cbv zeta. unfold performMeasurement.
  set (data := if dummy_mode (config g) then _ else _).
  cbn [valid].
  destruct (Rgeb (nitrite_concentration data) 0 && Rleb (nitrite_concentration data) 100
            && Rgeb (nitrate_concentration data) 0 && Rleb (nitrate_concentration data) 1000
            && Rgtb (temperature data) (-10) && Rltb (temperature data) 50) eqn:E;
    cbn [fst snd valid consecutiveErrors mqttLog config calibration sensorHealthy].
  - split; [reflexivity | ]. split; [discriminate | ]. repeat split.
  - split; [discriminate | ]. split; [intros _; split; reflexivity | ]. repeat split.
Qed.

(** In dummy mode every cycle is valid, whatever the random draws: nitrite
    lies in 0.1..0.6, nitrate in 5..25, the temperature in 17..35; the error
    counter is cleared and the quality score is the computed one, not the
    85..99 the generator wrote. *)
Theorem dummy_cycle_valid (inp : Inputs) (g : Globals) :
  dummy_mode (config g) = true ->
  (forall k, (0 <= rawRandom inp k)%Z) ->
  let g' := fst (performMeasurement inp g) in
  let d := snd (performMeasurement inp g) in
  valid d = true
  /\ 0.1 <= nitrite_concentration d < 0.6
  /\ 5 <= nitrate_concentration d < 25
  /\ 17 <= temperature d < 35
  /\ consecutiveErrors g' = 0%Z
  /\ quality_score d = calculateQualityScore g (millisAtScore inp) d.
Proof.
  intros Hdummy Hrand. cbv zeta.
  assert (Hd : nitrite_concentration (snd (performMeasurement inp g))
               = 0.1 + IZR (random 0 50 (rawRandom inp 0%nat)) / 100.0
               /\ nitrate_concentration (snd (performMeasurement inp g))
                  = 5.0 + IZR (random 0 200 (rawRandom inp 1%nat)) / 10.0
               /\ temperature (snd (performMeasurement inp g))
                  = 20.0 + IZR (random (-30) 150 (rawRandom inp 2%nat)) / 10.0).
  { unfold performMeasurement. rewrite Hdummy.
    match goal with |- context [if ?c then _ else _] => destruct c end;
      repeat split. }
  destruct Hd as (H2 & H3 & Ht).
  pose proof (random_range 0 50 _ ltac:(lia) (Hrand 0%nat)) as [R2a R2b].
  pose proof (random_range 0 200 _ ltac:(lia) (Hrand 1%nat)) as [R3a R3b].
  pose proof (random_range (-30) 150 _ ltac:(lia) (Hrand 2%nat)) as [Rta Rtb].
  apply IZR_le in R2a, R3a, Rta. apply IZR_lt in R2b, R3b, Rtb.
  assert (B2 : 0.1 <= nitrite_concentration (snd (performMeasurement inp g)) < 0.6)
    by (rewrite H2; lra).
  assert (B3 : 5 <= nitrate_concentration (snd (performMeasurement inp g)) < 25)
    by (rewrite H3; lra).
  assert (Bt : 17 <= temperature (snd (performMeasurement inp g)) < 35)
    by (rewrite Ht; lra).
  assert (Hvalid : valid (snd (performMeasurement inp g)) = true)
    by (apply performMeasurement_valid_iff; lra).
  split; [exact Hvalid | ]. split; [exact B2 | ]. split; [exact B3 | ].
  split; [exact Bt | ].
  split; [ | apply (performMeasurement_valid_publishes inp g Hvalid)].
  apply (performMeasurement_counter inp g). exact Hvalid.
Qed.

Lemma dummy_cycle_valid_witness :
  valid (snd (performMeasurement (idleInputs 20) dummyGlobals)) = true.
Proof.
  apply (dummy_cycle_valid (idleInputs 20) dummyGlobals).
  - reflexivity.
  - intros k. cbn. lia.
Defined.

End NitriteDummy.

Section NitriteScoring.
Local Open Scope R_scope.
Import NitriteNitrate NitriteMore NitriteScenario.

(** The quality score is 100 less the penalties that apply (20 for nitrite
    above 5, 20 for nitrate above 200, 10 for a temperature outside 10..30,
    30 without calibration, 20 for a calibration older than a week); the
    penalties add up to at most 100, so the floor at 0 never cuts.  All else
    equal, a calibrated module scores exactly 30 more than an uncalibrated
    one. *)
Theorem quality_score_penalties (g : Globals) (now : Z) (d : MeasurementData) :
  calculateQualityScore g now d = (100 - penalties g now d)%Z
  /\ (0 <= penalties g now d <= 100)%Z
  /\ (forall g' : Globals,
         calibrated (calibration g) = true ->
         calibrated (calibration g') = false ->
         last_calibration (calibration g') = last_calibration (calibration g) ->
         calculateQualityScore g now d = (calculateQualityScore g' now d + 30)%Z).
Proof.
  assert (Hscore : forall h, calculateQualityScore h now d = (100 - penalties h now d)%Z
                             /\ (0 <= penalties h now d <= 100)%Z).
  { intros h. unfold calculateQualityScore, penalties. cbv zeta.
    destruct (Rgtb (nitrite_concentration d) 5.0),
      (Rgtb (nitrate_concentration d) 200.0),
      (Rltb (temperature d) 10 || Rgtb (temperature d) 30),
      (calibrated (calibration h)),
      (((now - last_calibration (calibration h)) mod 2 ^ 32 >? 604800000)%Z);
      cbn [negb]; lia. }
  split; [apply Hscore | ]. split; [apply Hscore | ].
  intros g' Hc Hc' Hage.
  rewrite (proj1 (Hscore g)), (proj1 (Hscore g')).
  unfold penalties. cbv zeta. rewrite Hc, Hc', Hage. lia.
Qed.

Lemma quality_score_penalties_witness :
  calculateQualityScore
    (mkGlobals defaultConfig
       (mkCalibrationData [0.1; 1.0; 10.0] [1.0; 10.0; 100.0] [0; 0; 0] [0; 0; 0] true 0%Z)
       true 0%Z [])
    1000 stackZero
  = (calculateQualityScore defaultGlobals 1000 stackZero + 30)%Z.
Proof.
  apply quality_score_penalties; reflexivity.
Defined.

Lemma handleAlarms_shape (g : Globals) (d : MeasurementData) (log : list Message) :
  exists alarms : list Message,
    handleAlarms g d log = log ++ alarms /\ length alarms = alarms_raised g d.
Proof.
  unfold handleAlarms, alarms_raised. cbv zeta.
  destruct (Rgtb (nitrite_concentration d) _), (Rgtb (nitrate_concentration d) _).
  - eexists. rewrite <- app_assoc. split; reflexivity.
  - eexists. split; reflexivity.
  - eexists. split; reflexivity.
  - exists []. rewrite app_nil_r. split; reflexivity.
Qed.

(** Alarms are not held back: every call of [handleAlarms] appends one
    alert for each threshold the measurement exceeds, none otherwise, and
    keeps what was published before; a second call on the same measurement
    publishes the same number again. *)
Theorem handleAlarms_appends (g : Globals) (d : MeasurementData) (log : list Message) :
  (exists alarms : list Message,
      handleAlarms g d log = log ++ alarms /\ length alarms = alarms_raised g d)
  /\ (alarms_raised g d <= 2)%nat
  /\ length (handleAlarms g d (handleAlarms g d log))
     = (length log + 2 * alarms_raised g d)%nat
  /\ (nitrite_concentration d <= alarm_threshold_no2 (config g) ->
      nitrate_concentration d <= alarm_threshold_no3 (config g) ->
      handleAlarms g d log = log).
Proof.
  split; [apply handleAlarms_shape | ]. split; [ | split].
  - unfold alarms_raised. cbv zeta.
    destruct (Rgtb (nitrite_concentration d) _), (Rgtb (nitrate_concentration d) _); lia.
  - destruct (handleAlarms_shape g d log) as (a1 & E1 & L1).
    destruct (handleAlarms_shape g d (handleAlarms g d log)) as (a2 & E2 & L2).
    rewrite E2, E1, !length_app, L1, L2. lia.
  - intros H2 H3. unfold handleAlarms.
    assert (E2 : Rgtb (nitrite_concentration d) (alarm_threshold_no2 (config g)) = false).
    { destruct (Rgtb (nitrite_concentration d) _) eqn:E;
        [apply Rgtb_true in E; lra | reflexivity]. }
    assert (E3 : Rgtb (nitrate_concentration d) (alarm_threshold_no3 (config g)) = false).
    { destruct (Rgtb (nitrate_concentration d) _) eqn:E;
        [apply Rgtb_true in E; lra | reflexivity]. }
    rewrite E2, E3. reflexivity.
Qed.

Lemma handleAlarms_appends_witness :
  handleAlarms defaultGlobals stackZero [] = [].
Proof.
  apply (handleAlarms_appends defaultGlobals stackZero []); cbn; lra.
Defined.

End NitriteScoring.

Section NitriteRuns.
Local Open Scope R_scope.
Import NitriteNitrate NitriteMore NitriteScenario.

(** A cycle outside dummy mode: what the local [data] holds before the
    validity test. *)
Lemma real_cycle_data (inp : Inputs) (g : Globals) :
  dummy_mode (config g) = false ->
  let d := snd (performMeasurement inp g) in
  nitrite_concentration d =
    pow10 ((readAnalogVoltage (analogNitrite inp) - offsetNo2 g) / nitrite_slope (config g))
    * (1.0 + temp_coefficient (config g) * (tempSensorC inp - 25.0))
  /\ nitrate_concentration d =
    pow10 ((readAnalogVoltage (analogNitrate inp) - offsetNo3 g) / nitrate_slope (config g))
    * (1.0 + temp_coefficient (config g) * (tempSensorC inp - 25.0))
  /\ temperature d = tempSensorC inp
  /\ ph_value d = 7 /\ conductivity d = 500.
Proof.
  intros Hdummy. cbv zeta. unfold performMeasurement. rewrite Hdummy.
  unfold calculateConcentrations, offsetNo2, offsetNo3.
  destruct (calibrated (calibration g));
    match goal with |- context [if ?c then _ else _] => destruct c end;
    cbn; repeat split; try lra;
    replace (1.0 + ph_compensation (config g) * (7.0 - 7.0)) with 1 by lra;
    replace (1.0 + conductivity_compensation (config g) * (500.0 - 500.0) / 500.0)
      with 1 by lra; ring.
Qed.

(** Outside dummy mode the pH and the conductivity are the constants 7 and
    500, so the cross-sensor compensation is neutral: whatever its two
    coefficients, each concentration is the Nernst inversion times the
    temperature factor alone. *)
Theorem cross_compensation_neutral (inp : Inputs) (g : Globals) :
  dummy_mode (config g) = false ->
  let d := snd (performMeasurement inp g) in
  nitrite_concentration d =
    pow10 ((readAnalogVoltage (analogNitrite inp) - offsetNo2 g) / nitrite_slope (config g))
    * (1.0 + temp_coefficient (config g) * (tempSensorC inp - 25.0))
  /\ nitrate_concentration d =
    pow10 ((readAnalogVoltage (analogNitrate inp) - offsetNo3 g) / nitrate_slope (config g))
    * (1.0 + temp_coefficient (config g) * (tempSensorC inp - 25.0))
  /\ ph_value d = 7 /\ conductivity d = 500.
Proof.
  intros Hdummy. destruct (real_cycle_data inp g Hdummy) as (H2 & H3 & _ & Hp & Hc).
  cbv zeta. repeat split; assumption.
Qed.

Lemma cross_compensation_neutral_witness :
  ph_value (snd (performMeasurement (idleInputs 20) defaultGlobals)) = 7.
Proof.
  apply (cross_compensation_neutral (idleInputs 20) defaultGlobals). reflexivity.
Defined.

Lemma invalid_cycle_step (inp : Inputs) (g : Globals) :
  dummy_mode (config g) = false ->
  tempSensorC inp <= -10 \/ 50 <= tempSensorC inp ->
  consecutiveErrors (fst (performMeasurement inp g)) = (consecutiveErrors g + 1)%Z
  /\ mqttLog (fst (performMeasurement inp g)) = mqttLog g
  /\ config (fst (performMeasurement inp g)) = config g.
Proof.
  intros Hdummy Htemp.
  destruct (real_cycle_data inp g Hdummy) as (_ & _ & Ht & _). cbv zeta in Ht.
  assert (Hinv : valid (snd (performMeasurement inp g)) = false).
  { destruct (valid _) eqn:E; [ | reflexivity].
    apply performMeasurement_valid_iff in E. lra. }
  destruct (performMeasurement_counter inp g) as (_ & Hcnt & Hcfg & _).
  cbv zeta in Hcnt, Hcfg. destruct (Hcnt Hinv) as [H1 H2].
  repeat split; assumption.
Qed.

(** A run of cycles whose probe temperature is outside (-10, 50), outside
    dummy mode, publishes nothing and adds one to the error counter per
    cycle. *)
Theorem failed_cycles_count (g : Globals) (inps : list Inputs) :
  dummy_mode (config g) = false ->
  Forall (fun inp => tempSensorC inp <= -10 \/ 50 <= tempSensorC inp) inps ->
  consecutiveErrors (runMeasurements g inps)
  = (consecutiveErrors g + Z.of_nat (length inps))%Z
  /\ mqttLog (runMeasurements g inps) = mqttLog g.
Proof.
  intros Hdummy Hall. revert g Hdummy.
  induction Hall as [ | inp inps Hinp Hall IH]; intros g Hdummy.
  - cbn. split; [lia | reflexivity].
  - unfold runMeasurements. cbn [fold_left].
    destruct (invalid_cycle_step inp g Hdummy Hinp) as (Hc & Hl & Hcfg).
    fold (runMeasurements (fst (performMeasurement inp g)) inps).
    destruct (IH (fst (performMeasurement inp g))) as [IHc IHl];
      [rewrite Hcfg; exact Hdummy | ].
    rewrite IHc, IHl, Hc, Hl. cbn [length]. split; [lia | reflexivity].
Qed.

(** The health check follows the counter: the module is unhealthy exactly
    from five consecutive errors on, it publishes an alert carrying the count
    at every check made in that state, and a valid cycle in between makes the
    next check report healthy. *)
Theorem health_follows_counter (now : Z) (g : Globals) :
  (sensorHealthy (fst (checkSensorHealth now g)) = true
   <-> (consecutiveErrors g < 5)%Z)
  /\ (snd (checkSensorHealth now g) = Some (mkHealthAlert (consecutiveErrors g) now)
      <-> (5 <= consecutiveErrors g)%Z)
  /\ consecutiveErrors (fst (checkSensorHealth now g)) = consecutiveErrors g
  /\ (forall inp : Inputs,
         valid (snd (performMeasurement inp g)) = true ->
         sensorHealthy (fst (checkSensorHealth now (fst (performMeasurement inp g))))
         = true).
Proof.
  unfold checkSensorHealth, maxConsecutiveErrors.
  split; [ | split; [ | split]].
  - destruct (Z.geb_spec (consecutiveErrors g) 5) as [Hge | Hlt]; cbn; split;
      intros Hx; try discriminate; try reflexivity; lia.
  - destruct (Z.geb_spec (consecutiveErrors g) 5) as [Hge | Hlt]; cbn; split;
      intros Hx; try discriminate; try reflexivity; lia.
  - destruct (consecutiveErrors g >=? 5)%Z; reflexivity.
  - intros inp Hvalid.
    destruct (performMeasurement_counter inp g) as (Hzero & _).
    cbv zeta in Hzero. rewrite (Hzero Hvalid). reflexivity.
Qed.

Lemma failed_cycles_count_witness :
  let g := runMeasurements defaultGlobals
             [idleInputs (-127); idleInputs (-127); idleInputs (-127);
              idleInputs (-127); idleInputs (-127)] in
  consecutiveErrors g = 5%Z /\ mqttLog g = [].
Proof.
  cbv zeta.
  apply (failed_cycles_count defaultGlobals
           [idleInputs (-127); idleInputs (-127); idleInputs (-127);
            idleInputs (-127); idleInputs (-127)]).
  - reflexivity.
  - repeat constructor; cbn; lra.
Defined.

Lemma health_follows_counter_witness :
  sensorHealthy
    (fst (checkSensorHealth 9000
            (fst (performMeasurement (idleInputs 20) defaultGlobals)))) = true.
Proof.
  apply (health_follows_counter 9000 defaultGlobals). exact idle_cycle_valid.
Defined.

End NitriteRuns.

Section NitriteCalibration.
Local Open Scope R_scope.
Import NitriteNitrate NitriteMore NitriteScenario.

Lemma adc_sum_bounds (rd : nat -> Z) (l : list nat) (acc : Z) :
  (forall i, In i l -> (0 <= rd i <= 4095)%Z) ->
  (acc <= fold_left (fun a i => (a + rd i)%Z) l acc
   <= acc + 4095 * Z.of_nat (length l))%Z.
Proof.
  revert acc. induction l as [ | i l IH]; intros acc Hall.
  - cbn. lia.
  - cbn [fold_left length].
    assert (Hi : (0 <= rd i <= 4095)%Z) by (apply Hall; left; reflexivity).
    specialize (IH (acc + rd i)%Z ltac:(intros j Hj; apply Hall; right; exact Hj)).
    lia.
Qed.

(** With 12-bit samples the electrode voltage is a whole number of counts,
    the truncated mean of the ten samples, scaled to millivolts: it lies
    between 0 and 3300 mV. *)
Theorem readAnalogVoltage_counts (rd : nat -> Z) :
  (forall i, (i < 10)%nat -> (0 <= rd i <= 4095)%Z) ->
  exists n : Z,
    (0 <= n <= 4095)%Z
    /\ n = Z.quot (fold_right (fun i s => (rd i + s)%Z) 0%Z (seq 0 10)) 10
    /\ readAnalogVoltage rd = IZR n * 3.3 / 4095 * 1000
    /\ 0 <= readAnalogVoltage rd <= 3300.
Proof.
  intros Hall. unfold readAnalogVoltage, for_loop.
  pose proof (adc_sum_bounds rd (seq 0 10) 0%Z) as Hb.
  specialize (Hb ltac:(intros i Hi; apply Hall; apply in_seq in Hi; lia)).
  set (sum := fold_left (fun a i => (a + rd i)%Z) (seq 0 10) 0%Z) in *.
  change (length (seq 0 10)) with 10%nat in Hb.
  assert (Hsum : sum = fold_right (fun i s => (rd i + s)%Z) 0%Z (seq 0 10))
    by (unfold sum; cbn [fold_left fold_right seq]; lia).
  exists (Z.quot sum 10).
  assert (Hq : (0 <= Z.quot sum 10 <= 4095)%Z).
  { rewrite Z.quot_div_nonneg by lia. split.
    - apply Z.div_pos; lia.
    - apply Z.div_le_upper_bound; lia. }
  split; [exact Hq | ]. split; [rewrite Hsum; reflexivity | ].
  destruct Hq as [Hq0 Hq1]. apply IZR_le in Hq0, Hq1.
  split; lra.
Qed.

Lemma readAnalogVoltage_counts_witness :
  0 <= readAnalogVoltage (fun i => Z.of_nat i) <= 3300.
Proof.
  destruct (readAnalogVoltage_counts (fun i => Z.of_nat i)) as (n & _ & _ & _ & H).
  - intros i Hi. lia.
  - exact H.
Defined.

(** The calibration routine checks nothing: whatever the six voltages, the
    module is flagged calibrated, and the stored image gives configuration
    and calibration back.  Afterwards a reading at the voltage recorded for
    the second standard yields the bare temperature factor for either
    electrode (1 mg/L at 25 degrees), the slope staying the configured
    one. *)
Theorem calibration_is_offset_only (readsNo2 readsNo3 : nat -> nat -> Z) (now : Z)
    (g : Globals) :
  let g' := fst (performCalibration readsNo2 readsNo3 now g) in
  let image := snd (performCalibration readsNo2 readsNo3 now g) in
  calibrated (calibration g') = true
  /\ last_calibration (calibration g') = now
  /\ config g' = config g
  /\ (forall h : Globals,
         config (loadSensorConfig image h) = config g'
         /\ calibration (loadSensorConfig image h) = calibration g')
  /\ (forall inp : Inputs,
         dummy_mode (config g) = false ->
         readAnalogVoltage (analogNitrite inp) = readAnalogVoltage (readsNo2 1%nat) ->
         readAnalogVoltage (analogNitrate inp) = readAnalogVoltage (readsNo3 1%nat) ->
         let d := snd (performMeasurement inp g') in
         nitrite_concentration d
         = 1.0 + temp_coefficient (config g) * (tempSensorC inp - 25.0)
         /\ nitrate_concentration d
            = 1.0 + temp_coefficient (config g) * (tempSensorC inp - 25.0)).
Proof.
  cbv zeta. split; [reflexivity | ]. split; [reflexivity | ]. split; [reflexivity | ].
  split; [intros h; split; reflexivity | ].
  intros inp Hdummy H2 H3.
  destruct (real_cycle_data inp (fst (performCalibration readsNo2 readsNo3 now g)))
    as (E2 & E3 & _); [exact Hdummy | ].
  cbv zeta in E2, E3. rewrite E2, E3.
  unfold offsetNo2, offsetNo3, performCalibration.
  cbn [fst calibration calibrated nitrite_voltages nitrate_voltages config
       map seq at_index nth].
  rewrite H2, H3.
  match goal with |- context [pow10 ((?a - ?a) / ?s)] =>
    replace ((a - a) / s) with 0 by (unfold Rdiv; ring) end.
  match goal with |- context [pow10 ((?a - ?a) / ?s)] =>
    replace ((a - a) / s) with 0 by (unfold Rdiv; ring) end.
  rewrite pow10_0. split; ring.
Qed.

Lemma calibration_is_offset_only_witness :
  let g' := fst (performCalibration (fun _ _ => 0%Z) (fun _ _ => 0%Z) 500 defaultGlobals) in
  nitrate_concentration (snd (performMeasurement (idleInputs 25) g')) = 1.
Proof.
  cbv zeta.
  destruct (calibration_is_offset_only (fun _ _ => 0%Z) (fun _ _ => 0%Z) 500
              defaultGlobals) as (_ & _ & _ & _ & H).
  destruct (H (idleInputs 25) eq_refl eq_refl eq_refl) as [_ H3].
  rewrite H3. cbn. lra.
Defined.

End NitriteCalibration.

(** * Further properties of the organic-load module *)

Section TocBodActuators.
Import TocBod TocBodMore.
Local Open Scope Z_scope.

Lemma takeMeasurement_pins (inp : Inputs) (g : Globals) :
  (sampleValvePin (takeMeasurement inp g) = true -> sampleValvePin g = true)
  /\ (heaterPin (takeMeasurement inp g) = true -> heaterPin g = true)
  /\ (reagentPumpPin (takeMeasurement inp g) = true -> reagentPumpPin g = true).
Proof.
  unfold takeMeasurement, handleSensorError.
  destruct (isValidReading _ _ _); [cbn; tauto | ].
  destruct (consecutiveErrors g + 1 >=? 5); cbn; repeat split; auto; discriminate.
Qed.

Lemma apply_event_actuators (g : Globals) (e : Event) :
  actuators_match g -> actuators_match (apply_event g e).
Proof.
  unfold actuators_match. intros (Hv & Hh & Hp).
  destruct e as [inp | now]; cbn [apply_event].
  - unfold handleSampleStateMachine.
    destruct (currentState g) eqn:Hs.
    + rewrite Hs. repeat split; assumption.
    + destruct (heaterPin g) eqn:Eh; [specialize (Hh eq_refl); discriminate | ].
      destruct (reagentPumpPin g) eqn:Ep; [specialize (Hp eq_refl); discriminate | ].
      cbn [stateStartTime set_pins heaterPin reagentPumpPin].
      destruct (_ >? _); cbn; repeat split; intros; try discriminate; try reflexivity;
        congruence.
    + destruct (sampleValvePin g) eqn:Ev; [specialize (Hv eq_refl); discriminate | ].
      destruct (reagentPumpPin g) eqn:Ep; [specialize (Hp eq_refl); discriminate | ].
      cbn [stateStartTime set_pins sampleValvePin reagentPumpPin].
      destruct (_ >? _); cbn; repeat split; intros; try discriminate; try reflexivity;
        congruence.
    + destruct (sampleValvePin g) eqn:Ev; [specialize (Hv eq_refl); discriminate | ].
      destruct (heaterPin g) eqn:Eh; [specialize (Hh eq_refl); discriminate | ].
      destruct (reagentPumpPin g) eqn:Ep; [specialize (Hp eq_refl); discriminate | ].
      destruct (_ >? _); [ | rewrite Hs, Ev, Eh, Ep; repeat split; discriminate].
      destruct (takeMeasurement_pins inp g) as (Tv & Th & Tp).
      rewrite Ev in Tv. rewrite Eh in Th. rewrite Ep in Tp.
      cbn [set_state sampleValvePin heaterPin reagentPumpPin currentState].
      split; [ | split]; intros H; [apply Tv in H | apply Th in H | apply Tp in H];
        discriminate H.
    + destruct (sampleValvePin g) eqn:Ev; [specialize (Hv eq_refl); discriminate | ].
      destruct (heaterPin g) eqn:Eh; [specialize (Hh eq_refl); discriminate | ].
      cbn [stateStartTime set_pins sampleValvePin heaterPin].
      destruct (_ >? _); cbn; repeat split; intros; try discriminate; try reflexivity;
        congruence.
  - unfold startMeasurementCycle.
    destruct (currentState g) eqn:Hs; cbn [SampleState_eqb];
      try (rewrite Hs; repeat split; assumption).
    destruct (sampleValvePin g) eqn:Ev; [specialize (Hv eq_refl); discriminate | ].
    destruct (heaterPin g) eqn:Eh; [specialize (Hh eq_refl); discriminate | ].
    destruct (reagentPumpPin g) eqn:Ep; [specialize (Hp eq_refl); discriminate | ].
    cbn. rewrite Ev, Eh, Ep. repeat split; discriminate.
Qed.

(** From start-up on, whatever passes and start requests follow, the sample
    valve is open only in SAMPLING, the heater is on only in HEATING and the
    reagent pump runs only in CLEANING; in IDLE and MEASURING all three are
    off. *)
Theorem actuators_follow_state (es : list Event) :
  let g := run initGlobals es in
  actuators_match g
  /\ (currentState g = IDLE \/ currentState g = MEASURING ->
      sampleValvePin g = false /\ heaterPin g = false /\ reagentPumpPin g = false).
Proof.
  cbv zeta.
  assert (Hinv : forall g, actuators_match g -> actuators_match (run g es)).
  { unfold run. induction es as [ | e es IH]; intros g Hg; cbn [fold_left].
    - exact Hg.
    - apply IH. apply apply_event_actuators. exact Hg. }
  assert (H0 : actuators_match initGlobals)
    by (unfold actuators_match, initGlobals; cbn; repeat split; discriminate).
  specialize (Hinv initGlobals H0). split; [exact Hinv | ].
  destruct Hinv as (Hv & Hh & Hp). intros Hstate.
  destruct (sampleValvePin _) eqn:Ev; [specialize (Hv eq_refl) | ];
    destruct (heaterPin _) eqn:Eh; try specialize (Hh eq_refl);
    destruct (reagentPumpPin _) eqn:Ep; try specialize (Hp eq_refl);
    try (repeat split; reflexivity);
    destruct Hstate as [Hs | Hs]; congruence.
Qed.

Lemma actuators_follow_state_witness :
  let g := run initGlobals [StartRequest 0; tickAt 30001; tickAt 50000; tickAt 90002] in
  currentState g = MEASURING
  /\ sampleValvePin g = false /\ heaterPin g = false /\ reagentPumpPin g = false.
Proof.
  cbv zeta. split; [reflexivity | ].
  apply (actuators_follow_state
           [StartRequest 0; tickAt 30001; tickAt 50000; tickAt 90002]).
  right. reflexivity.
Defined.

End TocBodActuators.

Section TocBodErrors.
Import TocBod TocBodMore.
Local Open Scope Z_scope.

(** The error handler counts: below five errors in a row it only records
    the count and reports healthy while the count is under three; the fifth
    returns the machine to IDLE with all outputs off and clears the count, so
    that the error after it is reported as healthy again. *)
Theorem handleSensorError_counts (g : Globals) :
  let n := consecutiveErrors g + 1 in
  let g' := handleSensorError g in
  (n < 5 ->
   consecutiveErrors g' = n /\ sensorHealthy g' = (n <? 3)
   /\ currentState g' = currentState g /\ heaterPin g' = heaterPin g
   /\ sampleValvePin g' = sampleValvePin g /\ reagentPumpPin g' = reagentPumpPin g)
  /\ (5 <= n ->
      consecutiveErrors g' = 0 /\ sensorHealthy g' = false
      /\ currentState g' = IDLE /\ heaterPin g' = false
      /\ sampleValvePin g' = false /\ reagentPumpPin g' = false
      /\ sensorHealthy (handleSensorError g') = true).
Proof.
  cbv zeta. unfold handleSensorError.
  destruct (Z.geb_spec (consecutiveErrors g + 1) 5) as [Hge | Hlt]; split; intros H;
    try lia; cbn.
  - repeat split. destruct (Z.ltb_spec (consecutiveErrors g + 1) 3); [lia | reflexivity].
  - repeat split.
Qed.

Lemma handleSensorError_counts_witness :
  let g := mkGlobals MEASURING 0 0 0 0 false 4 false false false in
  currentState (handleSensorError g) = IDLE
  /\ sensorHealthy (handleSensorError (handleSensorError g)) = true.
Proof.
  cbv zeta.
  destruct (handleSensorError_counts
              (mkGlobals MEASURING 0 0 0 0 false 4 false false false)) as [_ H].
  destruct (H ltac:(cbn; lia)) as (_ & _ & Hs & _ & _ & _ & Hh).
  split; assumption.
Defined.

(** The elapsed time survives the wrap of the millisecond clock: when [d]
    milliseconds, fewer than [2^32], have passed since [start], the
    difference computed from the wrapped clock is [d]. *)
Theorem elapsed_across_wrap (start d : Z) :
  0 <= start < 2 ^ 32 -> 0 <= d < 2 ^ 32 ->
  elapsed ((start + d) mod 2 ^ 32) start = d.
Proof.
  intros Hs Hd. unfold elapsed.
  rewrite Zminus_mod_idemp_l.
  replace (start + d - start) with d by lia.
  apply Z.mod_small. exact Hd.
Qed.

Lemma elapsed_across_wrap_witness :
  elapsed ((4294967000 + 30001) mod 2 ^ 32) 4294967000 = 30001.
Proof. apply elapsed_across_wrap; lia. Defined.

End TocBodErrors.

Section TocBodReadings.
Import TocBod TocBodMore.
Local Open Scope R_scope.

Lemma compensation_factor_pos (T : R) (isTOC : bool) :
  0 <= T <= 50 ->
  0 < 1.0 + (if isTOC then 0.01 else BOD_TEMPERATURE_COEFFICIENT) * (T - 20.0).
Proof. intros HT. unfold BOD_TEMPERATURE_COEFFICIENT. destruct isTOC; lra. Qed.

Lemma negative_reading_invalid (inp : Inputs) :
  toc inp < 0 \/ bod inp < 0 ->
  isValidReading (applyTemperatureCompensation (toc inp) (tempC inp) true)
                 (applyTemperatureCompensation (bod inp) (tempC inp) false)
                 (tempC inp) = false.
Proof.
  intros Hneg.
  { unfold isValidReading, applyTemperatureCompensation.
    destruct (Rgeb (tempC inp) 0.0) eqn:T0; [ | rewrite !andb_false_r; reflexivity].
    destruct (Rleb (tempC inp) 50.0) eqn:T1; [ | rewrite !andb_false_r; reflexivity].
    apply Rgeb_true in T0. apply Rleb_true in T1.
    pose proof (compensation_factor_pos (tempC inp) true ltac:(lra)) as F1.
    pose proof (compensation_factor_pos (tempC inp) false ltac:(lra)) as F2.
    cbv iota in F1, F2. cbv zeta.
    destruct Hneg as [Hn | Hn].
    - assert (E : Rgeb (toc inp * (1.0 + 0.01 * (tempC inp - 20.0))) 0.0 = false)
        by (apply Rgeb_false; nra).
      rewrite E. reflexivity.
    - assert (E : Rgeb (bod inp * (1.0 + BOD_TEMPERATURE_COEFFICIENT * (tempC inp - 20.0)))
                       0.0 = false)
        by (apply Rgeb_false; nra).
      rewrite E. rewrite !andb_false_r. reflexivity. }
Qed.

(** A negative TOC or BOD value, whatever the temperature, sends
    [takeMeasurement] down the error path: nothing is recorded and no alert
    is sent. *)
Theorem negative_reading_is_error (inp : Inputs) (g : Globals) :
  toc inp < 0 \/ bod inp < 0 ->
  takeMeasurement inp g = handleSensorError g
  /\ takeMeasurementAlerts inp g = [].
Proof.
  intros Hneg. pose proof (negative_reading_invalid inp Hneg) as Hinv.
  unfold takeMeasurement, takeMeasurementAlerts. rewrite Hinv. split; reflexivity.
Qed.

Lemma negative_reading_is_error_witness :
  takeMeasurement (mkInputs 0 0 (-1.375) 15.0 22.0) initGlobals
  = handleSensorError initGlobals.
Proof.
  apply (negative_reading_is_error (mkInputs 0 0 (-1.375) 15.0 22.0) initGlobals).
  left. cbn. lra.
Defined.

End TocBodReadings.

Section TocBodSampling.
Import TocBod TocBodMore.
Local Open Scope R_scope.

(** The value [readTOC] and [readBOD] compute for one sample. *)
Let converted (reference : R) (resolution : Z) (slope intercept : R) (raw : Z) : R :=
  ((IZR raw * reference) / IZR resolution - intercept) / slope.

Lemma sample_loop_none (n : nat) (reference : R) (resolution : Z)
    (slope intercept top : R) (rd : nat -> Z) :
  (forall i, (i < n)%nat ->
     ~ (0 <= converted reference resolution slope intercept (rd i) <= top)) ->
  sample_loop n reference resolution slope intercept top rd = (0.0, 0%Z).
Proof.
  intros Hnone. unfold sample_loop, for_loop.
  assert (Hgen : forall l acc, (forall i, In i l -> (i < n)%nat) ->
             fold_left
               (fun (acc : R * Z) i =>
                  let rawValue := rd i in
                  let voltage := (IZR rawValue * reference) / IZR resolution in
                  let value := (voltage - intercept) / slope in
                  if (Rgeb value 0.0) && (Rleb value top)
                  then (fst acc + value, (snd acc + 1)%Z)
                  else acc) l acc = acc).
  { induction l as [ | i l IH]; intros acc Hl; [reflexivity | ].
    cbn [fold_left]. cbv zeta.
    specialize (Hnone i (Hl i (or_introl eq_refl))). unfold converted in Hnone.
    destruct (Rgeb _ 0.0) eqn:E1; destruct (Rleb _ top) eqn:E2; cbn [andb];
      try (apply IH; intros j Hj; apply Hl; right; exact Hj).
    exfalso. apply Hnone. apply Rgeb_true in E1. apply Rleb_true in E2. lra. }
  apply Hgen. intros i Hi. apply in_seq in Hi. lia.
Qed.

(** When none of the ten samples converts to a value in 0..1000 the TOC
    reading is -1.375 mg/L (the marker -1 after the zero and span
    correction), and a measurement made of it takes the error path. *)
Theorem readTOC_no_valid_sample (cal : CalibrationData) (rd : nat -> Z)
    (inp : Inputs) (g : Globals) :
  (forall i, (i < TOC_SAMPLES)%nat ->
     ~ (0 <= ((IZR (rd i) * TOC_REFERENCE_VOLTAGE) / IZR TOC_RESOLUTION
              - toc_intercept cal) / toc_slope cal <= 1000)) ->
  readTOC cal rd = -1.375
  /\ (toc inp = readTOC cal rd -> takeMeasurement inp g = handleSensorError g).
Proof.
  intros Hnone.
  assert (Hr : readTOC cal rd = -1.375).
  { unfold readTOC. rewrite sample_loop_none.
    - cbn. unfold TOC_ZERO_OFFSET, TOC_SPAN_FACTOR. lra.
    - intros i Hi. specialize (Hnone i Hi). unfold converted. intros H. apply Hnone. lra. }
  split; [exact Hr | ].
  intros Htoc. unfold takeMeasurement.
  rewrite negative_reading_invalid; [reflexivity | ]. left. rewrite Htoc, Hr. lra.
Qed.

Lemma readTOC_no_valid_sample_witness :
  readTOC (initializeDefaultCalibration 0) (steady 0) = -1.375.
Proof.
  apply (readTOC_no_valid_sample (initializeDefaultCalibration 0) (steady 0)
           (mkInputs 0 0 0 0 0) initGlobals).
  intros i _. unfold steady, TOC_REFERENCE_VOLTAGE, TOC_RESOLUTION.
  cbn [initializeDefaultCalibration toc_intercept toc_slope]. lra.
Defined.

End TocBodSampling.

Section TocBodAlerts.
Import TocBod TocBodMore.
Local Open Scope R_scope.

Lemma takeMeasurement_records (inp : Inputs) (g : Globals) :
  let toc := applyTemperatureCompensation (toc inp) (tempC inp) true in
  let bod := applyTemperatureCompensation (bod inp) (tempC inp) false in
  isValidReading toc bod (tempC inp) = true ->
  lastTOC (takeMeasurement inp g) = toc /\ lastBOD (takeMeasurement inp g) = bod
  /\ consecutiveErrors (takeMeasurement inp g) = 0%Z
  /\ sensorHealthy (takeMeasurement inp g) = true.
Proof.
  cbv zeta. intros Hv. unfold takeMeasurement. rewrite Hv. repeat split.
Qed.

(** [takeMeasurement] stores the new values before it checks for alerts, so
    the two rapid-change alerts compare each value with itself and are never
    sent; of the level alerts at most one per quantity is sent, the critical
    one taking precedence. *)
Theorem rapid_change_never_sent (inp : Inputs) (g : Globals) (a : string * R) :
  In a (takeMeasurementAlerts inp g) ->
  fst a <> "RAPID_TOC_CHANGE"%string /\ fst a <> "RAPID_BOD_CHANGE"%string
  /\ (fst a = "HIGH_TOC"%string -> tocHighAlarm < snd a <= tocCriticalAlarm)
  /\ (fst a = "CRITICAL_TOC"%string -> tocCriticalAlarm < snd a).
Proof.
  unfold takeMeasurementAlerts.
  set (t := applyTemperatureCompensation (toc inp) (tempC inp) true).
  set (b := applyTemperatureCompensation (bod inp) (tempC inp) false).
  destruct (isValidReading t b (tempC inp)) eqn:Hv; [ | intros []].
  destruct (takeMeasurement_records inp g Hv) as (Ht & Hb & _).
  fold t in Ht. fold b in Hb.
  unfold checkAlerts. rewrite Ht, Hb.
  replace (t - t) with 0 by ring. replace (b - b) with 0 by ring. rewrite Rabs_R0.
  assert (Z1 : Rgtb 0 20.0 = false)
    by (destruct (Rgtb 0 20.0) eqn:E; [apply Rgtb_true in E; lra | reflexivity]).
  assert (Z2 : Rgtb 0 10.0 = false)
    by (destruct (Rgtb 0 10.0) eqn:E; [apply Rgtb_true in E; lra | reflexivity]).
  rewrite Z1, Z2. cbn [app].
  unfold tocHighAlarm, tocCriticalAlarm.
  destruct (Rgtb t 100.0) eqn:C1; [ | destruct (Rgtb t 50.0) eqn:C2];
    destruct (Rgtb b bodCriticalAlarm); try destruct (Rgtb b bodHighAlarm);
    destruct (Rgtb t 30.0 && Rgtb b 20.0); cbn [app In];
    intros Hin;
    repeat (destruct Hin as [Hin | Hin]; [subst a; cbn [fst snd] | ]);
    try contradiction;
    (split; [discriminate | ]); (split; [discriminate | ]);
    (split; intros Hname; try discriminate Hname);
    try (apply Rgtb_true in C1); try (apply Rgtb_true in C2);
    try (assert (t <= 100.0)
          by (destruct (Rle_dec t 100.0); [assumption | ];
              assert (Rgtb t 100.0 = true) by (apply Rgtb_true; lra); congruence));
    lra.
Qed.

Lemma rapid_change_never_sent_witness :
  let inp := mkInputs 0 0 60.0 15.0 20.0 in
  takeMeasurementAlerts inp initGlobals <> []
  /\ forall a, In a (takeMeasurementAlerts inp initGlobals) ->
               fst a <> "RAPID_TOC_CHANGE"%string.
Proof.
  cbv zeta. split.
  - unfold takeMeasurementAlerts, applyTemperatureCompensation, isValidReading,
      BOD_TEMPERATURE_COEFFICIENT.
    cbn [toc bod tempC].
    replace (60.0 * (1.0 + 0.01 * (20.0 - 20.0))) with 60 by lra.
    replace (15.0 * (1.0 + 0.02 * (20.0 - 20.0))) with 15 by lra.
    assert (H1 : Rgeb 60 0.0 = true) by (apply Rgeb_true; lra).
    assert (H2 : Rleb 60 1000.0 = true) by (apply Rleb_true; lra).
    assert (H3 : Rgeb 15 0.0 = true) by (apply Rgeb_true; lra).
    assert (H4 : Rleb 15 500.0 = true) by (apply Rleb_true; lra).
    assert (H5 : Rgeb 20.0 0.0 = true) by (apply Rgeb_true; lra).
    assert (H6 : Rleb 20.0 50.0 = true) by (apply Rleb_true; lra).
    rewrite H1, H2, H3, H4, H5, H6. cbn [andb].
    unfold checkAlerts, tocCriticalAlarm, tocHighAlarm.
    assert (C1 : Rgtb 60 100.0 = false)
      by (destruct (Rgtb 60 100.0) eqn:E; [apply Rgtb_true in E; lra | reflexivity]).
    assert (C2 : Rgtb 60 50.0 = true) by (apply Rgtb_true; lra).
    rewrite C1, C2. discriminate.
  - intros a Ha.
    apply (rapid_change_never_sent (mkInputs 0 0 60.0 15.0 20.0) initGlobals a Ha).
Defined.

End TocBodAlerts.

Section AmmoniaAfterCalibration.
Local Open Scope R_scope.
Import Ammonia AmmoniaMore Scenario.

(** The converter delivers volts, at most 3.3 apart, and the accepted slope
    magnitudes start at 50: every calibration run over the converter is
    rejected.  It leaves the EEPROM as it was and the curve in memory
    invalid, so that every sampling cycle after it, until a restart, computes
    0, is marked invalid and publishes nothing. *)
Theorem calibration_run_disables_sampling (reads : nat -> nat -> Z) (now : Z)
    (g : Globals) (inp : Inputs) :
  let g' := performCalibration reads now g in
  isValid (calibration g') = false
  /\ eeprom g' = eeprom g
  /\ instantaneousTotal inp g' = 0
  /\ dataValid (currentReading (takeAmmoniaMeasurement inp g')) = false
  /\ mqttLog (takeAmmoniaMeasurement inp g') = mqttLog g
  /\ calibration (restart g') = calibration (restart g).
Proof.
  cbv zeta.
  destruct (performCalibration_always_rejected reads now g) as [Hinv Hee].
  assert (Hzero : instantaneousTotal inp (performCalibration reads now g) = 0).
  { unfold instantaneousTotal, calculateAmmoniaConcentration. rewrite Hinv. cbn. lra. }
  split; [exact Hinv | ]. split; [exact Hee | ]. split; [exact Hzero | ].
  rewrite takeAmmoniaMeasurement_rejected
    by (rewrite Hzero; unfold AMMONIA_MIN_RANGE; lra).
  cbn [currentReading set_dataValid dataValid mqttLog].
  split; [reflexivity | ]. split.
  - rewrite performCalibration_volts.
    pose proof (performCalibration_slope_small reads g) as Hsmall. cbv zeta in Hsmall.
    rewrite fitAndValidate_rejects by (unfold MIN_ACCEPTABLE_SLOPE; lra).
    reflexivity.
  - unfold restart. rewrite Hee. reflexivity.
Qed.

End AmmoniaAfterCalibration.
